(** * libstix2 / datastore / sqlite3: collections, range windows, bundles

    A shallow embedding of the collection part of the sqlite3 datastore
    (GetBundle, GetObjectList, GetManifestData, addCollection,
    getCollections, processRangeValues) and the properties of its
    range-window arithmetic, its query pipeline and its write path. *)

From Stdlib Require Import ZArith List String Ascii Bool Lia.
Import ListNotations.

Local Open Scope string_scope.
Local Open Scope list_scope.
Local Open Scope Z_scope.

(* ====================================================================== *)
(** ** Go's [int] *)
(* ====================================================================== *)

(** Go's [int] on the 64-bit targets the datastore is built for: a signed
    two's-complement integer; [+] and [-] wrap around silently. *)
Module GoInt.

Definition intSize : Z := 64.
Definition minInt : Z := - 2 ^ (intSize - 1).
Definition maxInt : Z := 2 ^ (intSize - 1) - 1.

Definition inRange (z : Z) : Prop := minInt <= z <= maxInt.

(** The representative of [z] modulo [2^64] that lies in [minInt..maxInt]. *)
Definition wrap (z : Z) : Z := (z - minInt) mod 2 ^ intSize + minInt.

Definition add (a b : Z) : Z := wrap (a + b).
Definition sub (a b : Z) : Z := wrap (a - b).

End GoInt.

(* ====================================================================== *)
(** ** Errors and results *)
(* ====================================================================== *)

(** A Go [error] value: built by [errors.New(msg)], or by
    [fmt.Errorf(msg, err)] around an error handed over by a callee. *)
Inductive error : Type :=
| errorsNew (msg : string)
| fmtErrorf (msg : string) (arg : error).

(** What a call of one of the public methods ends in: its values with a nil
    error, a non-nil error (the other results are nil), or a run-time panic
    (slice bounds or index out of range). *)
Inductive outcome (A : Type) : Type :=
| Ok (a : A)
| Err (e : error)
| Panic.

Arguments Ok {A} a.
Arguments Err {A} e.
Arguments Panic {A}.

Definition bind {A B : Type} (m : outcome A) (k : A -> outcome B) : outcome B :=
  match m with
  | Ok a => k a
  | Err e => Err e
  | Panic => Panic
  end.

Notation "x <- m ;; k" := (bind m (fun x => k))
  (at level 61, m at next level, right associativity).

(* ====================================================================== *)
(** ** Go slices that are resliced *)
(* ====================================================================== *)

(** A slice whose capacity matters: the [elems] it shows ([len] of them)
    and what lies behind them in the backing array up to [cap] ([spare]).
    Slices that are only appended to and ranged over are plain lists. *)
Module GoSlice.

Record t (A : Type) : Type := mk { elems : list A; spare : list A }.
Arguments mk {A} elems spare.
Arguments elems {A} _.
Arguments spare {A} _.

Section Ops.
Context {A : Type}.

(** The zero value of the element type, and how many slots the run time
    leaves free when [append] has to grow a slice to [n] elements. *)
Variable zero : A.
Variable growSpare : nat -> nat.

Definition nilSlice : t A := mk [] [].

Definition len (s : t A) : Z := Z.of_nat (List.length (elems s)).
Definition cap (s : t A) : Z := Z.of_nat (List.length (elems s) + List.length (spare s)).

(** [append(s, x)]: in place when there is room, else into a fresh zeroed
    array. *)
Definition append (s : t A) (x : A) : t A :=
  match spare s with
  | _ :: rest => mk (elems s ++ [x]) rest
  | [] => mk (elems s ++ [x]) (repeat zero (growSpare (S (List.length (elems s)))))
  end.

(** [s[low:high]]: panics unless [0 <= low <= high <= cap(s)]. *)
Definition slice (s : t A) (low high : Z) : outcome (t A) :=
  if (0 <=? low) && (low <=? high) && (high <=? cap s) then
    let backing := elems s ++ spare s in
    Ok (mk (firstn (Z.to_nat (high - low)) (skipn (Z.to_nat low) backing))
           (skipn (Z.to_nat high) backing))
  else Panic.

(** [s[i]]: panics unless [0 <= i < len(s)]. *)
Definition index (s : t A) (i : Z) : outcome A :=
  if (0 <=? i) && (i <? len s) then
    match nth_error (elems s) (Z.to_nat i) with
    | Some x => Ok x
    | None => Panic
    end
  else Panic.

End Ops.

End GoSlice.

(* ====================================================================== *)
(** ** processRangeValues *)
(* ====================================================================== *)

Definition errNegativeStart : error :=
  errorsNew "the starting value can not be negative".
Definition errStartAfterEnd : error :=
  errorsNew "the starting range value is larger than the ending range value".
Definition errOutOfScope : error :=
  errorsNew "the starting range value is out of scope".

(** [processRangeValues(first, last, max, size)]: the first and last index
    values to be used, [last] exclusive; [(0, 0, err)] on a bad range. *)
Definition processRangeValues (first last max size : Z) : Z * Z * option error :=
  if first <? 0 then (0, 0, Some errNegativeStart)
  else if first >? last then (0, 0, Some errStartAfterEnd)
  else if first >=? size then (0, 0, Some errOutOfScope)
  else
    let last :=
      if (last =? 0) && (first =? 0) && negb (max =? 0)
      then GoInt.add first max
      else GoInt.add last 1 in
    let last := if last >? size then size else last in
    let last :=
      if negb (max =? 0) && (GoInt.sub last first >? max)
      then GoInt.add first max
      else last in
    (first, last, None).

(** The resolver as the specification words it, over the integers: the
    default window [[first, first+max)] when no range was requested and a
    maximum is forced, else the inclusive [last] made exclusive; the end
    clamped to [size]; the window cut to [max] entries when [max > 0]. *)
Definition resolve_spec (first last max size : Z) : Z * Z :=
  let stop :=
    if (first =? 0) && (last =? 0) && (0 <? max) then first + max else last + 1 in
  let stop := if size <? stop then size else stop in
  let stop := if (0 <? max) && (max <? stop - first) then first + max else stop in
  (first, stop).


(* ====================================================================== *)
(** ** Data model *)
(* ====================================================================== *)

(** Package [datastore]: the query, with the fields the sqlite3 code reads
    (the filters stay with the statement builders). *)
Module query.

Record QueryType : Type := {
  CollectionID : string;
  RangeBegin : Z;
  RangeEnd : Z;
  RangeMax : Z
}.

End query.

(** Package [datastore]: the data returned with a query's result and the
    raw rows of a collection. *)
Module datastore.

Record QueryReturnDataType : Type := {
  Size : Z;
  DateAddedFirst : string;
  DateAddedLast : string;
  RangeBegin : Z;
  RangeEnd : Z
}.

Record CollectionRawDataType : Type := {
  STIXID : string;
  DateAdded : string;
  STIXVersion : string;
  SpecVersion : string
}.

(** [var rawData CollectionRawDataType]: every field the empty string. *)
Definition zeroRawData : CollectionRawDataType :=
  {| STIXID := EmptyString; DateAdded := EmptyString;
     STIXVersion := EmptyString; SpecVersion := EmptyString |}.

End datastore.

(** Modelled from the spec: the manifest of package [resources], which is
    not part of the sources at hand. An entry is
    [{id, dateAdded, version, specVersion}]; a manifest is its entries in the
    order they were created; [CreateManifestEntry] appends one entry. *)
Module manifest.

Record ManifestEntryType : Type := {
  ID : string;
  DateAdded : string;
  Version : string;
  SpecVersion : string
}.

Definition zeroEntry : ManifestEntryType :=
  {| ID := EmptyString; DateAdded := EmptyString;
     Version := EmptyString; SpecVersion := EmptyString |}.

Record ManifestType : Type := {
  Objects : GoSlice.t ManifestEntryType
}.

Definition InitManifest : ManifestType := {| Objects := GoSlice.nilSlice |}.

Definition CreateManifestEntry (growSpare : nat -> nat) (m : ManifestType)
    (id date ver media : string) : ManifestType :=
  {| Objects :=
       GoSlice.append zeroEntry growSpare (Objects m)
         {| ID := id; DateAdded := date; Version := ver; SpecVersion := media |} |}.

End manifest.

(** Modelled from the spec: the collection resource of package [resources],
    [{id, title, description, enabled, hidden, canRead, canWrite,
    mediaTypes, dateAdded}], its setters, and the collections resource that
    [GetNewCollection] extends by one collection. *)
Module collection.

Record CollectionType : Type := {
  DateAdded : string;
  Enabled : bool;
  Hidden : bool;
  ID : string;
  Title : string;
  Description : string;
  CanRead : bool;
  CanWrite : bool;
  MediaTypes : list string
}.

Definition NewCollection : CollectionType :=
  {| DateAdded := EmptyString; Enabled := false; Hidden := false;
     ID := EmptyString; Title := EmptyString; Description := EmptyString;
     CanRead := false; CanWrite := false; MediaTypes := [] |}.

Definition SetDateAdded (c : CollectionType) (d : string) : CollectionType :=
  {| DateAdded := d; Enabled := Enabled c; Hidden := Hidden c; ID := ID c;
     Title := Title c; Description := Description c; CanRead := CanRead c;
     CanWrite := CanWrite c; MediaTypes := MediaTypes c |}.

Definition SetEnabledTo (c : CollectionType) (b : bool) : CollectionType :=
  {| DateAdded := DateAdded c; Enabled := b; Hidden := Hidden c; ID := ID c;
     Title := Title c; Description := Description c; CanRead := CanRead c;
     CanWrite := CanWrite c; MediaTypes := MediaTypes c |}.
Definition SetEnabled (c : CollectionType) : CollectionType := SetEnabledTo c true.
Definition SetDisabled (c : CollectionType) : CollectionType := SetEnabledTo c false.

Definition SetHiddenTo (c : CollectionType) (b : bool) : CollectionType :=
  {| DateAdded := DateAdded c; Enabled := Enabled c; Hidden := b; ID := ID c;
     Title := Title c; Description := Description c; CanRead := CanRead c;
     CanWrite := CanWrite c; MediaTypes := MediaTypes c |}.
Definition SetHidden (c : CollectionType) : CollectionType := SetHiddenTo c true.
Definition SetVisible (c : CollectionType) : CollectionType := SetHiddenTo c false.

Definition SetID (c : CollectionType) (s : string) : CollectionType :=
  {| DateAdded := DateAdded c; Enabled := Enabled c; Hidden := Hidden c; ID := s;
     Title := Title c; Description := Description c; CanRead := CanRead c;
     CanWrite := CanWrite c; MediaTypes := MediaTypes c |}.

Definition SetTitle (c : CollectionType) (s : string) : CollectionType :=
  {| DateAdded := DateAdded c; Enabled := Enabled c; Hidden := Hidden c; ID := ID c;
     Title := s; Description := Description c; CanRead := CanRead c;
     CanWrite := CanWrite c; MediaTypes := MediaTypes c |}.

Definition SetDescription (c : CollectionType) (s : string) : CollectionType :=
  {| DateAdded := DateAdded c; Enabled := Enabled c; Hidden := Hidden c; ID := ID c;
     Title := Title c; Description := s; CanRead := CanRead c;
     CanWrite := CanWrite c; MediaTypes := MediaTypes c |}.

Definition SetCanRead (c : CollectionType) : CollectionType :=
  {| DateAdded := DateAdded c; Enabled := Enabled c; Hidden := Hidden c; ID := ID c;
     Title := Title c; Description := Description c; CanRead := true;
     CanWrite := CanWrite c; MediaTypes := MediaTypes c |}.

Definition SetCanWrite (c : CollectionType) : CollectionType :=
  {| DateAdded := DateAdded c; Enabled := Enabled c; Hidden := Hidden c; ID := ID c;
     Title := Title c; Description := Description c; CanRead := CanRead c;
     CanWrite := true; MediaTypes := MediaTypes c |}.

Definition AddMediaType (c : CollectionType) (mt : string) : CollectionType :=
  {| DateAdded := DateAdded c; Enabled := Enabled c; Hidden := Hidden c; ID := ID c;
     Title := Title c; Description := Description c; CanRead := CanRead c;
     CanWrite := CanWrite c; MediaTypes := MediaTypes c ++ [mt] |}.

Record CollectionsType : Type := {
  Collections : list CollectionType
}.

Definition InitCollections : CollectionsType := {| Collections := [] |}.

End collection.

(** Modelled from the spec: the bundle of package [objects], an ordered
    collection of full object payloads; [AddObject] appends one payload. *)
Module bundle.

Record BundleType (STIXObject : Type) : Type := {
  Objects : list STIXObject
}.
Arguments Objects {STIXObject} _.

Definition InitBundle {STIXObject : Type} : BundleType STIXObject :=
  {| Objects := [] |}.

Definition AddObject {STIXObject : Type} (b : BundleType STIXObject)
    (obj : STIXObject) : BundleType STIXObject :=
  {| Objects := Objects b ++ [obj] |}.

End bundle.

(* ====================================================================== *)
(** ** The storage engine boundary *)
(* ====================================================================== *)

(** A value bound to a statement's placeholder. *)
Inductive SqlValue : Type :=
| SqlText (s : string)
| SqlInt (z : Z)
| SqlBool (b : bool).

(** A row put into a table: the insert statement and the values bound to it.
    Every statement this code executes is a single insert, run outside any
    transaction: the engine either rejects it and leaves the tables as they
    were, or stores the row. *)
Definition StoredRow : Type := (string * list SqlValue)%type.

(** A result cursor read with [rows.Next()] and [rows.Scan(...)]: what
    [Scan] gives at each row into destinations that make up a [T], and what
    [rows.Err()] gives after the last one. *)
Record Rows (T : Type) : Type := {
  scans : list (T + error);
  rowsErr : option error
}.
Arguments scans {T} _.
Arguments rowsErr {T} _.

(** The four text columns of a collection's content query, in the order they
    are scanned: dateAdded, stixid, modified, specVersion. *)
Definition ContentRow : Type := (string * string * string * string)%type.

(** The nine columns of the collections query. *)
Record CollectionRow : Type := {
  dateAdded : string;
  enabled : Z;
  hidden : Z;
  id : string;
  title : string;
  description : string;
  iCanRead : Z;
  iCanWrite : Z;
  mediaType : string
}.

(** The engine behind [ds.DB]: how it answers the two kinds of queries over
    the rows stored so far, and which inserts it rejects. *)
Record Engine : Type := {
  queryContent : list StoredRow -> string -> Rows ContentRow + error;
  queryCollections : list StoredRow -> string -> Rows CollectionRow + error;
  rejects : list StoredRow -> string -> list SqlValue -> option error
}.

Record SqlDB : Type := {
  engine : Engine;
  stored : list StoredRow
}.

Record Sqlite3DatastoreType : Type := {
  DB : SqlDB
}.

(** [ds.DB.Query(stmt)] for the content queries and the collections query. *)
Definition QueryContent (ds : Sqlite3DatastoreType) (stmt : string)
    : Rows ContentRow + error :=
  queryContent (engine (DB ds)) (stored (DB ds)) stmt.

Definition QueryCollections (ds : Sqlite3DatastoreType) (stmt : string)
    : Rows CollectionRow + error :=
  queryCollections (engine (DB ds)) (stored (DB ds)) stmt.

(** [ds.DB.Exec(stmt, args...)]: the datastore afterwards and the error. *)
Definition Exec (ds : Sqlite3DatastoreType) (stmt : string) (args : list SqlValue)
    : Sqlite3DatastoreType * option error :=
  match rejects (engine (DB ds)) (stored (DB ds)) stmt args with
  | Some e => (ds, Some e)
  | None =>
      ({| DB := {| engine := engine (DB ds);
                   stored := stored (DB ds) ++ [(stmt, args)] |} |}, None)
  end.

(** [strings.Split(s, sep)] for a one-byte separator: the fields between the
    separators, one more than there are separators. *)
Fixpoint Split (s : string) (sep : ascii) : list string :=
  match s with
  | EmptyString => [EmptyString]
  | String c rest =>
      if Ascii.eqb c sep then EmptyString :: Split rest sep
      else
        match Split rest sep with
        | field :: fields => String c field :: fields
        | [] => [String c EmptyString]
        end
  end.

(** [l[i]] on a slice that is never resliced. *)
Definition listIndex {A : Type} (l : list A) (i : Z) : outcome A :=
  if (0 <=? i) && (i <? Z.of_nat (List.length l)) then
    match nth_error l (Z.to_nat i) with
    | Some x => Ok x
    | None => Panic
    end
  else Panic.

(* ====================================================================== *)
(** ** The datastore methods *)
(* ====================================================================== *)

Section Sqlite3.

(** The payload of a STIX object, the run time's growth of appended slices,
    the statement builders of this package and [ds.GetObject]: all defined
    elsewhere, and parameters here. *)
Variable STIXObject : Type.
Variable growSpare : nat -> nat.
Variable sqlGetObjectList : query.QueryType -> string * option error.
Variable sqlGetManifestData : query.QueryType -> string * option error.
Variable sqlAddCollection : string * option error.
Variable sqlAddCollectionMediaType : string * option error.
Variable sqlGetAllCollections : string -> string * option error.
Variable GetObject : Sqlite3DatastoreType -> string -> string -> STIXObject + error.

(** The scan loop of [GetObjectList]: the raw data of every row, or the
    first scan error. *)
Fixpoint scanObjectList (rows : list (ContentRow + error))
    (collectionRawData : GoSlice.t datastore.CollectionRawDataType)
    : GoSlice.t datastore.CollectionRawDataType + error :=
  match rows with
  | [] => inl collectionRawData
  | inr err :: _ => inr (fmtErrorf "database scan error: " err)
  | inl (dateAdded, stixid, modified, specVersion) :: rest =>
      let rawData :=
        {| datastore.STIXID := stixid;
           datastore.DateAdded := dateAdded;
           datastore.STIXVersion := modified;
           datastore.SpecVersion := specVersion |} in
      scanObjectList rest
        (GoSlice.append datastore.zeroRawData growSpare collectionRawData rawData)
  end.

(** [GetObjectList(query)]: the raw data of the window and its metadata. *)
Definition GetObjectList (ds : Sqlite3DatastoreType) (query : query.QueryType)
    : outcome (GoSlice.t datastore.CollectionRawDataType
               * datastore.QueryReturnDataType) :=
  match sqlGetObjectList query with
  | (_, Some err) => Err err
  | (sqlStmt, None) =>
  match QueryContent ds sqlStmt with
  | inr err =>
      Err (fmtErrorf "database execution error querying collection content: " err)
  | inl rows =>
  match scanObjectList (scans rows) GoSlice.nilSlice with
  | inr err => Err err
  | inl collectionRawData =>
      let size := GoSlice.len collectionRawData in
      if size =? 0 then Err (errorsNew "no records returned") else
      match processRangeValues (query.RangeBegin query) (query.RangeEnd query)
              (query.RangeMax query) size with
      | (_, _, Some errRange) => Err errRange
      | (first, last, None) =>
          rangeCollectionRawData <- GoSlice.slice collectionRawData first last ;;
          head <- GoSlice.index rangeCollectionRawData 0 ;;
          tail <- GoSlice.index rangeCollectionRawData
                    (GoInt.sub (GoSlice.len rangeCollectionRawData) 1) ;;
          Ok (rangeCollectionRawData,
              {| datastore.Size := size;
                 datastore.DateAddedFirst := datastore.DateAdded head;
                 datastore.DateAddedLast := datastore.DateAdded tail;
                 datastore.RangeBegin := first;
                 datastore.RangeEnd := GoInt.sub last 1 |})
      end
  end end end.

(** The scan loop of [GetManifestData]: one manifest entry per row, or the
    first scan error. *)
Fixpoint scanManifest (rows : list (ContentRow + error))
    (m : manifest.ManifestType) : manifest.ManifestType + error :=
  match rows with
  | [] => inl m
  | inr err :: _ => inr (fmtErrorf "database scan error: " err)
  | inl (dateAdded, stixid, modified, specVersion) :: rest =>
      scanManifest rest
        (manifest.CreateManifestEntry growSpare m stixid dateAdded modified specVersion)
  end.

(** [GetManifestData(query)]. The size is not tested against zero, and of
    [metaData] only [Size] and the two timestamps are assigned: [RangeBegin]
    and [RangeEnd] keep the zero value of [var metaData]. *)
Definition GetManifestData (ds : Sqlite3DatastoreType) (query : query.QueryType)
    : outcome (manifest.ManifestType * datastore.QueryReturnDataType) :=
  match sqlGetManifestData query with
  | (_, Some err) => Err err
  | (sqlStmt, None) =>
  match QueryContent ds sqlStmt with
  | inr err =>
      Err (fmtErrorf "database execution error querying collection content: " err)
  | inl rows =>
  match scanManifest (scans rows) manifest.InitManifest with
  | inr err => Err err
  | inl m =>
      let size := GoSlice.len (manifest.Objects m) in
      match processRangeValues (query.RangeBegin query) (query.RangeEnd query)
              (query.RangeMax query) size with
      | (_, _, Some errRange) => Err errRange
      | (first, last, None) =>
          objects <- GoSlice.slice (manifest.Objects m) first last ;;
          head <- GoSlice.index objects 0 ;;
          tail <- GoSlice.index objects (GoInt.sub (GoSlice.len objects) 1) ;;
          Ok ({| manifest.Objects := objects |},
              {| datastore.Size := size;
                 datastore.DateAddedFirst := manifest.DateAdded head;
                 datastore.DateAddedLast := manifest.DateAdded tail;
                 datastore.RangeBegin := 0;
                 datastore.RangeEnd := 0 |})
      end
  end end end.

(** The loop of [GetBundle] over the entries of the response. *)
Fixpoint fetchObjects (ds : Sqlite3DatastoreType)
    (entries : list datastore.CollectionRawDataType)
    (stixBundle : bundle.BundleType STIXObject)
    : bundle.BundleType STIXObject + error :=
  match entries with
  | [] => inl stixBundle
  | v :: rest =>
      match GetObject ds (datastore.STIXID v) (datastore.STIXVersion v) with
      | inr err => inr err
      | inl obj => fetchObjects ds rest (bundle.AddObject stixBundle obj)
      end
  end.

(** [GetBundle(query)]: the objects of the window, fetched one by one. *)
Definition GetBundle (ds : Sqlite3DatastoreType) (query : query.QueryType)
    : outcome (bundle.BundleType STIXObject * datastore.QueryReturnDataType) :=
  match GetObjectList ds query with
  | Err err => Err err
  | Panic => Panic
  | Ok (rangeCollectionRawData, metaData) =>
      match fetchObjects ds (GoSlice.elems rangeCollectionRawData) bundle.InitBundle with
      | inr err => Err err
      | inl stixBundle => Ok (stixBundle, metaData)
      end
  end.

(** The loop of [addCollection] over the media types of the collection. *)
Fixpoint addCollectionMediaTypes (ds : Sqlite3DatastoreType) (objID : string)
    (mediaTypes : list string) : Sqlite3DatastoreType * option error :=
  match mediaTypes with
  | [] => (ds, None)
  | media :: rest =>
      let '(stmt2, _) := sqlAddCollectionMediaType in
      let mediavalue :=
        if String.eqb media "application/vnd.oasis.stix+json" then 1 else 0 in
      match Exec ds stmt2 [SqlText objID; SqlInt mediavalue] with
      | (ds', Some err2) =>
          (ds', Some (fmtErrorf
                        "database execution error inserting collection media type" err2))
      | (ds', None) => addCollectionMediaTypes ds' objID rest
      end
  end.

(** [addCollection(obj)]; [dateAdded] is the formatted [time.Now().UTC()]. *)
Definition addCollection (ds : Sqlite3DatastoreType) (dateAdded : string)
    (obj : collection.CollectionType) : Sqlite3DatastoreType * option error :=
  let '(stmt1, _) := sqlAddCollection in
  match Exec ds stmt1
          [SqlText dateAdded; SqlText (collection.ID obj);
           SqlText (collection.Title obj); SqlText (collection.Description obj);
           SqlBool (collection.CanRead obj); SqlBool (collection.CanWrite obj)] with
  | (ds', Some err1) =>
      (ds', Some (fmtErrorf "database execution error inserting collection" err1))
  | (ds', None) =>
      addCollectionMediaTypes ds' (collection.ID obj) (collection.MediaTypes obj)
  end.

(** The loop of [getCollections] over the split media types: [i] is the
    index of the entry at the head of [rest], counted by [range]. *)
Fixpoint recordMediaTypes (mediatypes : list string) (i : Z) (rest : list string)
    (c : collection.CollectionType) : outcome collection.CollectionType :=
  match rest with
  | [] => Ok c
  | mt :: rest' =>
      skip <-
        (if i >? 0 then
           prev <- listIndex mediatypes (GoInt.sub i 1) ;;
           Ok (String.eqb mt prev)
         else Ok false) ;;
      recordMediaTypes mediatypes (i + 1) rest'
        (if skip : bool then c else collection.AddMediaType c mt)
  end.

(** The body of the row loop of [getCollections] after a successful scan. *)
Definition collectionOfRow (r : CollectionRow) : outcome collection.CollectionType :=
  let c := collection.NewCollection in
  let c := collection.SetDateAdded c (dateAdded r) in
  let c := if enabled r =? 1 then collection.SetEnabled c
           else collection.SetDisabled c in
  let c := if hidden r =? 1 then collection.SetHidden c
           else collection.SetVisible c in
  let c := collection.SetID c (id r) in
  let c := collection.SetTitle c (title r) in
  let c := collection.SetDescription c (description r) in
  let c := if iCanRead r =? 1 then collection.SetCanRead c else c in
  let c := if iCanWrite r =? 1 then collection.SetCanWrite c else c in
  let mediatypes := Split (mediaType r) "," in
  recordMediaTypes mediatypes 0 mediatypes c.

(** The row loop of [getCollections]: [c] is the collection
    [GetNewCollection] has put at the end of [allCollections]. *)
Fixpoint scanCollections (rows : list (CollectionRow + error))
    (allCollections : collection.CollectionsType)
    : outcome collection.CollectionsType :=
  match rows with
  | [] => Ok allCollections
  | inr err :: _ => Err (fmtErrorf "database scan error querying collection: " err)
  | inl r :: rest =>
      c <- collectionOfRow r ;;
      scanCollections rest
        {| collection.Collections := collection.Collections allCollections ++ [c] |}
  end.

(** [getCollections(whichCollections)]: the statement builder picks the
    collections; a scan error or a row error discards what was read. *)
Definition getCollections (ds : Sqlite3DatastoreType) (whichCollections : string)
    : outcome collection.CollectionsType :=
  let '(getAllCollectionsStmt, _) := sqlGetAllCollections whichCollections in
  match QueryCollections ds getAllCollectionsStmt with
  | inr err => Err (fmtErrorf "database execution error querying collection: " err)
  | inl rows =>
      allCollections <- scanCollections (scans rows) collection.InitCollections ;;
      match rowsErr rows with
      | Some err => Err (fmtErrorf "database row error querying collection: " err)
      | None => Ok allCollections
      end
  end.

Definition GetAllCollections (ds : Sqlite3DatastoreType) :=
  getCollections ds "all".
Definition GetAllEnabledCollections (ds : Sqlite3DatastoreType) :=
  getCollections ds "allEnabled".
Definition GetCollections (ds : Sqlite3DatastoreType) :=
  getCollections ds "enabledVisible".

End Sqlite3.

(* ====================================================================== *)
(** ** Linking an object to a collection *)
(* ====================================================================== *)

(** Package [resources]: the record that links a STIX ID to a collection,
    with the two fields [addObjectToCollection] reads. *)
Module record.

Record CollectionRecordType : Type := {
  CollectionID : string;
  STIXID : string
}.

End record.

Section Sqlite3Records.

Variable sqlAddObjectToCollection : string * option error.

(** [addObjectToCollection(obj)]; [dateAdded] is the formatted
    [time.Now().UTC()]. *)
Definition addObjectToCollection (ds : Sqlite3DatastoreType) (dateAdded : string)
    (obj : record.CollectionRecordType) : Sqlite3DatastoreType * option error :=
  let '(stmt, _) := sqlAddObjectToCollection in
  match Exec ds stmt
          [SqlText dateAdded; SqlText (record.CollectionID obj);
           SqlText (record.STIXID obj)] with
  | (ds', Some err) =>
      (ds', Some (fmtErrorf "database execution error inserting collection data" err))
  | (ds', None) => (ds', None)
  end.

End Sqlite3Records.

(* ====================================================================== *)
(** ** objects/report *)
(* ====================================================================== *)

Module report.

Section Report.

(** The common and the descriptive properties a report embeds, and the
    timestamp handed to [SetPublished]: declared in [objects/common]. *)
Variable CommonPropertiesType : Type.
Variable DescriptivePropertiesType : Type.
Variable Timestamp : Type.
Variable VerifyTimestamp :
  CommonPropertiesType -> Timestamp -> string * option error.

(** [Object_refs] is [None] for the nil slice. *)
Record ReportType : Type := {
  common : CommonPropertiesType;
  descriptive : DescriptivePropertiesType;
  Published : string;
  Object_refs : option (list string)
}.

(** [SetPublished(t)]: the error of the verification, or nil. *)
Definition SetPublished (this : ReportType) (t : Timestamp)
    : ReportType * option error :=
  match VerifyTimestamp (common this) t with
  | (_, Some err) => (this, Some err)
  | (ts, None) =>
      ({| common := common this; descriptive := descriptive this;
          Published := ts; Object_refs := Object_refs this |}, None)
  end.

(** [AddObject(value)]. *)
Definition AddObject (this : ReportType) (value : string) : ReportType :=
  let refs :=
    match Object_refs this with
    | None => []
    | Some refs => refs
    end in
  {| common := common this; descriptive := descriptive this;
     Published := Published this; Object_refs := Some (refs ++ [value]) |}.

End Report.

Arguments common {_ _} _.
Arguments descriptive {_ _} _.
Arguments Published {_ _} _.
Arguments Object_refs {_ _} _.
Arguments AddObject {_ _} this value.
Arguments SetPublished {_ _ _} VerifyTimestamp this t.

End report.

(* ====================================================================== *)
(** ** objects/grouping *)
(* ====================================================================== *)

Module grouping.

Section Grouping.

(** The common properties of an SDO and their check [ValidSDO], declared in
    package [objects]: a verdict, the number of problems and the details. *)
Variable CommonObjectProperties : Type.
Variable ValidSDO : CommonObjectProperties -> bool -> bool * Z * list string.

(** The grouping, with the property [Valid] reads. *)
Record Grouping : Type := {
  common : CommonObjectProperties;
  Context : string
}.

(** [Valid(debug)]: the verdict, the number of problems found and the
    details. *)
Definition Valid (o : Grouping) (debug : bool) : bool * Z * list string :=
  let problemsFound := 0 in
  let resultDetails := [] in
  let '(_, pBase, dBase) := ValidSDO (common o) debug in
  let problemsFound := GoInt.add problemsFound pBase in
  let resultDetails := resultDetails ++ dBase in
  let '(problemsFound, resultDetails) :=
    if String.eqb (Context o) EmptyString then
      (GoInt.add problemsFound 1,
       resultDetails ++ ["-- The context property is required but missing"])
    else
      (problemsFound,
       resultDetails ++ ["++ The context property is required and is present"]) in
  if problemsFound >? 0 then (false, problemsFound, resultDetails)
  else (true, 0, resultDetails).

End Grouping.

Arguments common {_} _.
Arguments Context {_} _.
Arguments Valid {_} ValidSDO o debug.

End grouping.

(* ====================================================================== *)
(** ** Notions the properties are stated with *)
(* ====================================================================== *)

(** The raw data [GetObjectList] makes of a scanned row, and the manifest
    entry [GetManifestData] makes of it. *)
Definition rawDataOf (r : ContentRow) : datastore.CollectionRawDataType :=
  let '(dateAdded, stixid, modified, specVersion) := r in
  {| datastore.STIXID := stixid; datastore.DateAdded := dateAdded;
     datastore.STIXVersion := modified; datastore.SpecVersion := specVersion |}.

Definition entryOf (r : ContentRow) : manifest.ManifestEntryType :=
  let '(dateAdded, stixid, modified, specVersion) := r in
  {| manifest.ID := stixid; manifest.DateAdded := dateAdded;
     manifest.Version := modified; manifest.SpecVersion := specVersion |}.

(** The window [[first, last)] of a slice, read off its backing array. *)
Definition window {A : Type} (s : GoSlice.t A) (first last : Z) : list A :=
  firstn (Z.to_nat (last - first))
    (skipn (Z.to_nat first) (GoSlice.elems s ++ GoSlice.spare s)).

(** A delimited list with every entry dropped that equals the entry
    immediately before it ([prev], if there is one). *)
Fixpoint collapseRepeats (prev : option string) (entries : list string)
    : list string :=
  match entries with
  | [] => []
  | mt :: rest =>
      let kept := collapseRepeats (Some mt) rest in
      match prev with
      | Some p => if String.eqb mt p then kept else mt :: kept
      | None => mt :: kept
      end
  end.

(** The last element of a list, if there is one. *)
Definition lastOpt {A : Type} (l : list A) : option A :=
  List.last (map Some l) None.

(** The values [addCollection] binds to its two statements, and the rows it
    asks the engine to store. *)
Definition collectionArgs (dateAdded : string) (obj : collection.CollectionType)
    : list SqlValue :=
  [SqlText dateAdded; SqlText (collection.ID obj);
   SqlText (collection.Title obj); SqlText (collection.Description obj);
   SqlBool (collection.CanRead obj); SqlBool (collection.CanWrite obj)].

Definition mediaTypeArgs (objID media : string) : list SqlValue :=
  [SqlText objID;
   SqlInt (if String.eqb media "application/vnd.oasis.stix+json" then 1 else 0)].

Definition collectionRow (stmt1 dateAdded : string)
    (obj : collection.CollectionType) : StoredRow :=
  (stmt1, collectionArgs dateAdded obj).

Definition mediaTypeRow (stmt2 objID media : string) : StoredRow :=
  (stmt2, mediaTypeArgs objID media).

(** The engine stores [rows] one after the other on top of [stored]. *)
Fixpoint acceptsAll (e : Engine) (stored : list StoredRow) (rows : list StoredRow)
    : Prop :=
  match rows with
  | [] => True
  | r :: rest =>
      rejects e stored (fst r) (snd r) = None /\ acceptsAll e (stored ++ [r]) rest
  end.

(** The datastore with [rows] stored on top of what it holds. *)
Definition storing (ds : Sqlite3DatastoreType) (rows : list StoredRow)
    : Sqlite3DatastoreType :=
  {| DB := {| engine := engine (DB ds); stored := stored (DB ds) ++ rows |} |}.

(** The media types a row's delimited list stands for. *)
Definition mediaTypesOf (r : CollectionRow) : list string :=
  collapseRepeats None (Split (mediaType r) ",").

(** A Go string: its length is an [int], and the largest [int] is out of
    reach. *)
Definition goString (s : string) : Prop :=
  Z.of_nat (String.length s) < GoInt.maxInt.

(** Every fetch of [GetBundle] for [entries] succeeds, with [objs]. *)
Definition fetched {STIXObject : Type}
    (GetObject : Sqlite3DatastoreType -> string -> string -> STIXObject + error)
    (ds : Sqlite3DatastoreType)
    (entries : list datastore.CollectionRawDataType) (objs : list STIXObject)
    : Prop :=
  Forall2
    (fun v obj => GetObject ds (datastore.STIXID v) (datastore.STIXVersion v) = inl obj)
    entries objs.

(** The collection a row of the collections query stands for, field by
    field: a flag is set exactly when its column holds 1. *)
Definition collectionFor (r : CollectionRow) : collection.CollectionType :=
  {| collection.DateAdded := dateAdded r;
     collection.Enabled := enabled r =? 1;
     collection.Hidden := hidden r =? 1;
     collection.ID := id r;
     collection.Title := title r;
     collection.Description := description r;
     collection.CanRead := iCanRead r =? 1;
     collection.CanWrite := iCanWrite r =? 1;
     collection.MediaTypes := mediaTypesOf r |}.

(** The row [r] with another delimited list of media types. *)
Definition withMediaType (r : CollectionRow) (media : string) : CollectionRow :=
  {| dateAdded := dateAdded r; enabled := enabled r; hidden := hidden r;
     id := id r; title := title r; description := description r;
     iCanRead := iCanRead r; iCanWrite := iCanWrite r; mediaType := media |}.

(** Whether a media type is the one [addCollection] stores as 1. *)
Definition isSTIX (media : string) : bool :=
  String.eqb media "application/vnd.oasis.stix+json".

(** The separator does not occur in the string. *)
Fixpoint free (sep : ascii) (s : string) : Prop :=
  match s with
  | EmptyString => True
  | String c rest => c <> sep /\ free sep rest
  end.

(** The call returns: with values or with an error, not with a panic. *)
Definition returns {A : Type} (r : outcome A) : Prop :=
  match r with
  | Panic => False
  | _ => True
  end.

(** No entry equals the entry right after it. *)
Fixpoint noAdjacentRepeats (l : list string) : Prop :=
  match l with
  | x :: rest =>
      match rest with
      | y :: _ => x <> y
      | [] => True
      end /\ noAdjacentRepeats rest
  | [] => True
  end.

(** The row [addObjectToCollection] asks the engine to store. *)
Definition recordRow (stmt dateAdded : string) (obj : record.CollectionRecordType)
    : StoredRow :=
  (stmt, [SqlText dateAdded; SqlText (record.CollectionID obj);
          SqlText (record.STIXID obj)]).



(* ====================================================================== *)
(** ** Sample data *)
(* ====================================================================== *)

Module Sample.

(** Slices grown by doubling: a slice grown to [n] elements gets [2(n-1)]
    slots. *)
Definition doubling (n : nat) : nat := (n - 2)%nat.

Definition contentStmt (q : query.QueryType) : string * option error :=
  ("SELECT date_added, stix_id, modified, spec_version", None).

Definition row (n : string) : ContentRow :=
  ("2018-01-1" ++ n, "indicator--" ++ n, "2017-12-1" ++ n, "2.0")%string.

(** Ten rows of a collection, in the order of their added-timestamps. *)
Definition tenRows : list ContentRow :=
  map row ["0"; "1"; "2"; "3"; "4"; "5"; "6"; "7"; "8"; "9"].

(** An engine that answers every content query with [rows], has no
    collections and rejects the inserts [bad] picks out. *)
Definition engineOf (rows : list ContentRow)
    (bad : list StoredRow -> string -> list SqlValue -> option error) : Engine :=
  {| queryContent := fun _ _ => inl {| scans := map inl rows; rowsErr := None |};
     queryCollections := fun _ _ => inl {| scans := []; rowsErr := None |};
     rejects := bad |}.

Definition accepting : list StoredRow -> string -> list SqlValue -> option error :=
  fun _ _ _ => None.

Definition dsOf (rows : list ContentRow) : Sqlite3DatastoreType :=
  {| DB := {| engine := engineOf rows accepting; stored := [] |} |}.

Definition queryOf (first last max : Z) : query.QueryType :=
  {| query.CollectionID := "c1"; query.RangeBegin := first;
     query.RangeEnd := last; query.RangeMax := max |}.

(** An object store that knows every object but ["indicator--2"]. *)
Definition getObject (_ : Sqlite3DatastoreType) (stixid version : string)
    : string + error :=
  if String.eqb stixid "indicator--2" then inr (errorsNew "object not found")
  else inl (stixid ++ "@" ++ version)%string.

(** An engine that holds no more than one media type per collection: it
    rejects a media type insert once two rows are stored. *)
Definition oneMediaType : list StoredRow -> string -> list SqlValue -> option error :=
  fun rows stmt _ =>
    if String.eqb stmt "INSERT media" && (2 <=? List.length rows)%nat
    then Some (errorsNew "constraint failed") else None.

Definition dsWrite : Sqlite3DatastoreType :=
  {| DB := {| engine := engineOf [] oneMediaType; stored := [] |} |}.

Definition twoMediaCollection : collection.CollectionType :=
  {| collection.DateAdded := EmptyString; collection.Enabled := true;
     collection.Hidden := false; collection.ID := "c1";
     collection.Title := "t"; collection.Description := "d";
     collection.CanRead := true; collection.CanWrite := false;
     collection.MediaTypes :=
       ["application/vnd.oasis.stix+json"; "application/json"; "text/plain"] |}.

Definition collectionsStmt (which : string) : string * option error :=
  ("SELECT collections", None).

Definition collectionRowWith (ident media : string) : CollectionRow :=
  {| dateAdded := "2018-01-11"; enabled := 1; hidden := 0; id := ident;
     title := "t"; description := "d"; iCanRead := 1; iCanWrite := 0;
     mediaType := media |}.

Definition twoCollections : list CollectionRow :=
  [collectionRowWith "c1" "a,a,b"; collectionRowWith "c2" "a,b,a"].

Definition dsCollections : Sqlite3DatastoreType :=
  {| DB :=
       {| engine :=
            {| queryContent := fun _ _ => inl {| scans := []; rowsErr := None |};
               queryCollections := fun _ _ =>
                 inl {| scans := map inl twoCollections; rowsErr := None |};
               rejects := accepting |};
          stored := [] |} |}.

(** A content query whose second row does not scan. *)
Definition scanFailure : error := errorsNew "converting NULL to string".

Definition dsScanError : Sqlite3DatastoreType :=
  {| DB :=
       {| engine :=
            {| queryContent := fun _ _ =>
                 inl {| scans := [inl (row "0"); inr scanFailure; inl (row "2")];
                        rowsErr := None |};
               queryCollections := fun _ _ =>
                 inl {| scans := [inl (collectionRowWith "c1" "a"); inr scanFailure];
                        rowsErr := None |};
               rejects := accepting |};
          stored := [] |} |}.

(** A collections query that ends in a row error after its two rows. *)
Definition dsRowError : Sqlite3DatastoreType :=
  {| DB :=
       {| engine :=
            {| queryContent := fun _ _ => inl {| scans := []; rowsErr := None |};
               queryCollections := fun _ _ =>
                 inl {| scans := map inl twoCollections;
                        rowsErr := Some (errorsNew "interrupted") |};
               rejects := accepting |};
          stored := [] |} |}.

(** An engine that rejects every insert. *)
Definition rejecting : list StoredRow -> string -> list SqlValue -> option error :=
  fun _ _ _ => Some (errorsNew "database is locked").

Definition dsLocked : Sqlite3DatastoreType :=
  {| DB := {| engine := engineOf [] rejecting; stored := [] |} |}.

Definition link : record.CollectionRecordType :=
  {| record.CollectionID := "c1"; record.STIXID := "indicator--0" |}.

(** [twoMediaCollection] with other media types beside the STIX one. *)
Definition otherMediaCollection : collection.CollectionType :=
  {| collection.DateAdded := EmptyString; collection.Enabled := true;
     collection.Hidden := false; collection.ID := "c1";
     collection.Title := "t"; collection.Description := "d";
     collection.CanRead := true; collection.CanWrite := false;
     collection.MediaTypes :=
       ["application/vnd.oasis.stix+json"; "text/csv"; "application/xml"] |}.

(** A check of the common properties that finds [n] problems. *)
Definition validSDO (n : Z) (_ : unit) (_ : bool) : bool * Z * list string :=
  (n =? 0, n, ["++ common properties checked"]).

Definition groupingWith (context : string) : grouping.Grouping unit :=
  grouping.Build_Grouping unit tt context.

End Sample.

(* ====================================================================== *)
(** ** Arithmetic of Go's [int] *)
(* ====================================================================== *)

(** A comparison between numerals, possibly with the bounds of [int]. *)
Ltac by_numerals :=
  first [lia | vm_compute; first [reflexivity | discriminate]
        | split; vm_compute; discriminate].

Lemma wrap_inRange (z : Z) : GoInt.inRange z -> GoInt.wrap z = z.
Proof.
  unfold GoInt.inRange, GoInt.wrap, GoInt.minInt, GoInt.maxInt, GoInt.intSize.
  intros Hz. rewrite Z.mod_small by (simpl in *; lia). lia.
Qed.

Lemma add_exact (a b : Z) :
  GoInt.minInt <= a + b <= GoInt.maxInt -> GoInt.add a b = a + b.
Proof. intros H. unfold GoInt.add. now apply wrap_inRange. Qed.

Lemma sub_exact (a b : Z) :
  GoInt.minInt <= a - b <= GoInt.maxInt -> GoInt.sub a b = a - b.
Proof. intros H. unfold GoInt.sub. now apply wrap_inRange. Qed.

Lemma minInt_neg : GoInt.minInt < 0.
Proof. reflexivity. Qed.

Lemma maxInt_pos : 0 < GoInt.maxInt.
Proof. reflexivity. Qed.

(** Incrementing the largest [int] gives the smallest one. *)
Lemma add_maxInt_1 : GoInt.add GoInt.maxInt 1 = GoInt.minInt.
Proof. reflexivity. Qed.

(* ====================================================================== *)
(** ** processRangeValues: the window *)
(* ====================================================================== *)


Section Window.

Variables first last max size : Z.

Hypothesis first_nonneg : 0 <= first.
Hypothesis first_le_last : first <= last.
Hypothesis first_lt_size : first < size.

(** The three checks let a well-ordered request through. *)
Lemma processRangeValues_checks_pass :
  processRangeValues first last max size =
  let last' :=
    if (last =? 0) && (first =? 0) && negb (max =? 0)
    then GoInt.add first max else GoInt.add last 1 in
  let last' := if last' >? size then size else last' in
  let last' :=
    if negb (max =? 0) && (GoInt.sub last' first >? max)
    then GoInt.add first max else last' in
  (first, last', None).
Proof.
  unfold processRangeValues.
  destruct (Z.ltb_spec first 0); [lia|].
  rewrite (Z.gtb_ltb first last). destruct (Z.ltb_spec last first); [lia|].
  rewrite (Z.geb_leb first size). destruct (Z.leb_spec size first); [lia|].
  reflexivity.
Qed.

Hypothesis max_nonneg : 0 <= max.
Hypothesis max_int : max <= GoInt.maxInt.
Hypothesis last_incr : last < GoInt.maxInt.

(** Where no operation overflows, the code computes the window of the
    specification. *)
Lemma processRangeValues_exact :
  processRangeValues first last max size =
  (first, snd (resolve_spec first last max size), None).
Proof.
  rewrite processRangeValues_checks_pass. unfold resolve_spec. cbn zeta.
  pose proof minInt_neg as Hmin.
  destruct (Z.eqb_spec last 0) as [Hl|Hl], (Z.eqb_spec first 0) as [Hf|Hf],
    (Z.eqb_spec max 0) as [Hm|Hm]; cbn [andb negb snd];
    try (destruct (Z.ltb_spec 0 max); [|lia]); cbn [andb negb];
    try (destruct (Z.ltb_spec 0 max); [lia|]); cbn [andb negb].
  all: try (rewrite (add_exact last 1) by lia).
  all: try (rewrite (add_exact first max) by lia).
  all: rewrite ?Z.gtb_ltb.
  all: repeat match goal with
       | |- context [size <? ?b] => destruct (Z.ltb_spec size b)
       end.
  all: try (rewrite sub_exact by lia).
  all: repeat match goal with
       | |- context [max <? ?b] => destruct (Z.ltb_spec max b)
       end; cbn [snd]; try reflexivity; try lia.
  all: rewrite add_exact by lia; reflexivity.
Qed.

End Window.

(** The window of the specification is not empty, ends within the data and
    holds at most [max] entries when a maximum is forced. *)
Lemma resolve_spec_bounds (first last max size : Z) :
  0 <= first -> first <= last -> first < size -> 0 <= max ->
  fst (resolve_spec first last max size) = first /\
  first < snd (resolve_spec first last max size) <= size /\
  (0 < max -> snd (resolve_spec first last max size) - first <= max).
Proof.
  intros Hf Hfl Hfs Hm. unfold resolve_spec. cbn zeta.
  destruct (Z.eqb_spec first 0), (Z.eqb_spec last 0), (Z.ltb_spec 0 max);
    cbn [andb fst snd];
    repeat match goal with
    | |- context [size <? ?b] => destruct (Z.ltb_spec size b)
    | |- context [max <? ?b] => destruct (Z.ltb_spec max b)
    end; cbn [fst snd]; lia.
Qed.

(** C1 (amended): for every input that passes the validity checks
    ([first >= 0], [first <= last], [first < size]), has [0 <= max] within
    the range of [int] and a [last] that can be incremented without
    overflow, [processRangeValues] returns the window of the specification's
    algorithm: the default window [[first, first+max)] when [first] and
    [last] are zero and [max > 0], else [last] made exclusive; the end
    clamped to [size]; the window truncated to [first + max] when [max > 0]
    and it is longer than [max]. *)
Theorem processRangeValues_refines_resolve_spec (first last max size : Z) :
  0 <= first -> first <= last -> first < size ->
  0 <= max -> max <= GoInt.maxInt -> last < GoInt.maxInt ->
  processRangeValues first last max size =
  (resolve_spec first last max size, None).
Proof.
  intros Hf Hfl Hfs Hm Hmi Hl.
  rewrite processRangeValues_exact by assumption.
  destruct (resolve_spec_bounds first last max size Hf Hfl Hfs Hm) as [Hfst _].
  destruct (resolve_spec first last max size) as [b e]. cbn [fst snd] in *.
  now subst b.
Qed.

(** The three windows the specification gives as examples of C1. *)
Lemma processRangeValues_refines_resolve_spec_witness :
  processRangeValues 0 0 5 12 = (0, 5, None) /\
  processRangeValues 2 4 0 10 = (2, 5, None) /\
  processRangeValues 2 9 3 10 = (2, 5, None).
Proof.
  split; [|split].
  - apply (processRangeValues_refines_resolve_spec 0 0 5 12);
      by_numerals.
  - apply (processRangeValues_refines_resolve_spec 2 4 0 10);
      by_numerals.
  - apply (processRangeValues_refines_resolve_spec 2 9 3 10);
      by_numerals.
Defined.

(** C1 as stated fails: with a negative [max] the code takes the forced
    branches ([max != 0]) where the specification does not ([max > 0]), and
    at the largest [last] the increment wraps around. Both inputs pass the
    three validity checks. *)
Lemma processRangeValues_differs_from_resolve_spec :
  (processRangeValues 0 0 (-3) 10 = (0, -3, None) /\
   resolve_spec 0 0 (-3) 10 = (0, 1)) /\
  (processRangeValues 0 GoInt.maxInt 0 10 = (0, GoInt.minInt, None) /\
   resolve_spec 0 GoInt.maxInt 0 10 = (0, 10)).
Proof. repeat split; reflexivity. Qed.

(** C2: for [size > 0], [0 <= first <= last < size] and [max >= 0] (sizes
    and maxima being [int]s), [processRangeValues] succeeds, and its window
    holds at most [max] entries when [max > 0] and ends at or before
    [size]. *)
Theorem processRangeValues_window_bounded (first last max size : Z) :
  GoInt.inRange max -> GoInt.inRange size ->
  0 < size -> 0 <= first -> first <= last -> last < size -> 0 <= max ->
  exists windowStart windowEnd,
    processRangeValues first last max size = (windowStart, windowEnd, None) /\
    (0 < max -> windowEnd - windowStart <= max) /\
    windowEnd <= size.
Proof.
  intros [_ Hmax] [_ Hsize] Hs Hf Hfl Hls Hm.
  assert (Hfs : first < size) by lia.
  exists first, (snd (resolve_spec first last max size)).
  destruct (resolve_spec_bounds first last max size Hf Hfl Hfs Hm) as (_ & Hb & Hlen).
  split; [|split]; [|exact Hlen|lia].
  apply processRangeValues_exact; lia.
Qed.

(** The window for rows 2 to 9 of ten under a maximum of three. *)
Lemma processRangeValues_window_bounded_witness :
  exists windowStart windowEnd,
    processRangeValues 2 9 3 10 = (windowStart, windowEnd, None) /\
    (0 < 3 -> windowEnd - windowStart <= 3) /\
    windowEnd <= 10.
Proof.
  apply (processRangeValues_window_bounded 2 9 3 10);
    by_numerals.
Defined.

(* ====================================================================== *)
(** ** processRangeValues: the errors *)
(* ====================================================================== *)

(** C3 (amended): if [first >= size], and the request is well ordered
    ([0 <= first <= last]), [processRangeValues] returns the error for a
    start beyond the data, whatever [max] is. *)
Theorem processRangeValues_out_of_scope (first last max size : Z) :
  0 <= first -> first <= last -> size <= first ->
  processRangeValues first last max size = (0, 0, Some errOutOfScope).
Proof.
  intros Hf Hfl Hsf. unfold processRangeValues.
  destruct (Z.ltb_spec first 0); [lia|].
  rewrite (Z.gtb_ltb first last). destruct (Z.ltb_spec last first); [lia|].
  rewrite (Z.geb_leb first size). destruct (Z.leb_spec size first); [|lia].
  reflexivity.
Qed.

(** A start right behind twelve rows. *)
Lemma processRangeValues_out_of_scope_witness :
  processRangeValues 12 15 5 12 = (0, 0, Some errOutOfScope).
Proof. apply (processRangeValues_out_of_scope 12 15 5 12); lia. Defined.

(** C3 as stated fails: a start beyond the data that also lies after [last]
    is reported as a badly ordered range, the check that comes first. *)
Lemma processRangeValues_ordering_checked_first :
  4 <= 5 /\ 0 <= 5 /\
  processRangeValues 5 3 0 4 = (0, 0, Some errStartAfterEnd) /\
  errStartAfterEnd <> errOutOfScope.
Proof. repeat split; try lia; discriminate. Qed.

(** A negative start is refused before anything else is looked at. *)
Lemma processRangeValues_negative_start (first last max size : Z) :
  first < 0 ->
  processRangeValues first last max size = (0, 0, Some errNegativeStart).
Proof.
  intros Hf. unfold processRangeValues.
  destruct (Z.ltb_spec first 0); [reflexivity|lia].
Qed.

(** Every error of [processRangeValues] is one of its three. *)
Lemma processRangeValues_errors (first last max size a b : Z) (e : error) :
  processRangeValues first last max size = (a, b, Some e) ->
  e = errNegativeStart \/ e = errStartAfterEnd \/ e = errOutOfScope.
Proof.
  unfold processRangeValues.
  destruct (first <? 0); [intros [= _ _ <-]; auto|].
  destruct (first >? last); [intros [= _ _ <-]; auto|].
  destruct (first >=? size); [intros [= _ _ <-]; auto|].
  discriminate.
Qed.

(** Over no data every request is refused. *)
Lemma processRangeValues_no_data (first last max : Z) :
  exists e, processRangeValues first last max 0 = (0, 0, Some e) /\
            (e = errNegativeStart \/ e = errStartAfterEnd \/ e = errOutOfScope).
Proof.
  unfold processRangeValues.
  destruct (Z.ltb_spec first 0); [eauto|].
  destruct (first >? last); [eauto|].
  rewrite (Z.geb_leb first 0). destruct (Z.leb_spec 0 first); [eauto|lia].
Qed.

(** Where the increment of [last] does not overflow, a window that is
    returned without error is not empty and lies within the data. *)
Lemma processRangeValues_window_in_bounds (first last max size a b : Z) :
  0 <= max -> max <= GoInt.maxInt -> last < GoInt.maxInt ->
  processRangeValues first last max size = (a, b, None) ->
  a = first /\ 0 <= a /\ a < b /\ b <= size.
Proof.
  intros Hm Hmi Hl Hp.
  assert (Hchecks : 0 <= first /\ first <= last /\ first < size).
  { revert Hp. unfold processRangeValues.
    destruct (Z.ltb_spec first 0); [discriminate|].
    rewrite (Z.gtb_ltb first last). destruct (Z.ltb_spec last first); [discriminate|].
    rewrite (Z.geb_leb first size). destruct (Z.leb_spec size first); [discriminate|].
    lia. }
  destruct Hchecks as (Hf & Hfl & Hfs).
  rewrite processRangeValues_exact in Hp by assumption.
  destruct (resolve_spec_bounds first last max size Hf Hfl Hfs Hm) as (_ & Hb & _).
  revert Hp Hb. generalize (snd (resolve_spec first last max size)).
  intros stop [= <- <-] Hb. lia.
Qed.

(** Whatever is added or subtracted, the result is an [int]. *)
Lemma wrap_is_int (z : Z) : GoInt.inRange (GoInt.wrap z).
Proof.
  unfold GoInt.inRange, GoInt.wrap, GoInt.maxInt.
  pose proof (Z.mod_pos_bound (z - GoInt.minInt) (2 ^ GoInt.intSize) eq_refl) as Hb.
  change (2 ^ GoInt.intSize) with (2 * 2 ^ (GoInt.intSize - 1)) in *.
  change GoInt.minInt with (- 2 ^ (GoInt.intSize - 1)) in *.
  lia.
Qed.

(** The end of the window is an [int] when the size is. *)
Lemma processRangeValues_end_is_int (first last max size a b : Z) :
  GoInt.inRange size ->
  processRangeValues first last max size = (a, b, None) ->
  GoInt.inRange b.
Proof.
  intros Hs. unfold processRangeValues.
  destruct (first <? 0); [discriminate|].
  destruct (first >? last); [discriminate|].
  destruct (first >=? size); [discriminate|].
  cbn zeta. intros [= _ <-].
  repeat match goal with
  | |- context [if ?c then _ else _] => destruct c
  end; first [exact Hs | apply wrap_is_int].
Qed.

(* ====================================================================== *)
(** ** Slices and results *)
(* ====================================================================== *)

Lemma bind_Ok {A B : Type} (m : outcome A) (k : A -> outcome B) (b : B) :
  bind m k = Ok b -> exists a, m = Ok a /\ k a = Ok b.
Proof. destruct m as [a| |]; cbn; [eauto|discriminate|discriminate]. Qed.

Section SliceFacts.

Context {A : Type}.
Variable zero : A.
Variable growSpare : nat -> nat.

Lemma elems_append (s : GoSlice.t A) (x : A) :
  GoSlice.elems (GoSlice.append zero growSpare s x) = GoSlice.elems s ++ [x].
Proof. unfold GoSlice.append. now destruct (GoSlice.spare s). Qed.

Lemma slice_Ok (s r : GoSlice.t A) (low high : Z) :
  GoSlice.slice s low high = Ok r ->
  0 <= low /\ low <= high /\ high <= GoSlice.cap s /\
  GoSlice.elems r = window s low high.
Proof.
  unfold GoSlice.slice.
  destruct (Z.leb_spec 0 low), (Z.leb_spec low high), (Z.leb_spec high (GoSlice.cap s));
    cbn [andb]; try discriminate.
  intros [= <-]. cbn. repeat split; assumption.
Qed.

Lemma slice_Panic (s : GoSlice.t A) (low high : Z) :
  high < low -> GoSlice.slice s low high = Panic.
Proof.
  intros H. unfold GoSlice.slice.
  destruct (Z.leb_spec low high); [lia|]. now rewrite andb_false_r.
Qed.

Lemma index_Ok (s : GoSlice.t A) (i : Z) (x : A) :
  GoSlice.index s i = Ok x ->
  0 <= i < GoSlice.len s /\ nth_error (GoSlice.elems s) (Z.to_nat i) = Some x.
Proof.
  unfold GoSlice.index.
  destruct (Z.leb_spec 0 i), (Z.ltb_spec i (GoSlice.len s)); cbn [andb];
    try discriminate.
  destruct (nth_error (GoSlice.elems s) (Z.to_nat i)); [|discriminate].
  intros [= <-]. split; [lia|reflexivity].
Qed.


End SliceFacts.



(* ====================================================================== *)
(** ** The query pipeline *)
(* ====================================================================== *)

Section Pipeline.

Variable STIXObject : Type.
Variable growSpare : nat -> nat.
Variable sqlGetObjectList : query.QueryType -> string * option error.
Variable sqlGetManifestData : query.QueryType -> string * option error.
Variable GetObject : Sqlite3DatastoreType -> string -> string -> STIXObject + error.

(** The scan loops keep every row, in order, or fail. *)
Lemma scanObjectList_inl (rows : list (ContentRow + error))
    (s s' : GoSlice.t datastore.CollectionRawDataType) :
  scanObjectList growSpare rows s = inl s' ->
  exists matching,
    rows = map inl matching /\
    GoSlice.elems s' = GoSlice.elems s ++ map rawDataOf matching.
Proof.
  revert s. induction rows as [|[[[[d i] m] v]|err] rows IH]; intros s; cbn.
  - intros [= <-]. exists []. cbn. now rewrite app_nil_r.
  - intros H. destruct (IH _ H) as (matching & -> & Hel).
    exists ((d, i, m, v) :: matching). split; [reflexivity|].
    rewrite Hel, elems_append, <- app_assoc. reflexivity.
  - discriminate.
Qed.

Lemma scanManifest_inl (rows : list (ContentRow + error))
    (m m' : manifest.ManifestType) :
  scanManifest growSpare rows m = inl m' ->
  exists matching,
    rows = map inl matching /\
    GoSlice.elems (manifest.Objects m') =
    GoSlice.elems (manifest.Objects m) ++ map entryOf matching.
Proof.
  revert m. induction rows as [|[[[[d i] mo] v]|err] rows IH]; intros m; cbn.
  - intros [= <-]. exists []. cbn. now rewrite app_nil_r.
  - intros H. destruct (IH _ H) as (matching & -> & Hel).
    exists ((d, i, mo, v) :: matching). split; [reflexivity|].
    rewrite Hel. unfold manifest.CreateManifestEntry. cbn [manifest.Objects].
    rewrite elems_append, <- app_assoc. reflexivity.
  - discriminate.
Qed.


(** With no matching row [GetObjectList] reports that, before it looks at
    the range. *)
Lemma GetObjectList_no_rows (ds : Sqlite3DatastoreType) (query : query.QueryType)
    (sqlStmt : string) (rows : Rows ContentRow) :
  sqlGetObjectList query = (sqlStmt, None) ->
  QueryContent ds sqlStmt = inl rows ->
  scans rows = [] ->
  GetObjectList growSpare sqlGetObjectList ds query =
  Err (errorsNew "no records returned").
Proof.
  intros Hs Hq Hr. unfold GetObjectList. now rewrite Hs, Hq, Hr.
Qed.

(** With no matching row [GetManifestData] goes on to resolve the range
    over no data and returns one of the range errors. *)
Lemma GetManifestData_no_rows (ds : Sqlite3DatastoreType) (query : query.QueryType)
    (sqlStmt : string) (rows : Rows ContentRow) :
  sqlGetManifestData query = (sqlStmt, None) ->
  QueryContent ds sqlStmt = inl rows ->
  scans rows = [] ->
  exists e,
    GetManifestData growSpare sqlGetManifestData ds query = Err e /\
    (e = errNegativeStart \/ e = errStartAfterEnd \/ e = errOutOfScope) /\
    e <> errorsNew "no records returned".
Proof.
  intros Hs Hq Hr. unfold GetManifestData. rewrite Hs, Hq, Hr. cbn.
  destruct (processRangeValues_no_data (query.RangeBegin query)
              (query.RangeEnd query) (query.RangeMax query)) as (e & Hp & He).
  rewrite Hp. exists e. split; [reflexivity|]. split; [exact He|].
  destruct He as [-> | [-> | ->]]; discriminate.
Qed.

(** The metadata of [GetManifestData] never carries the window. *)
Lemma GetManifestData_range_unset (ds : Sqlite3DatastoreType)
    (query : query.QueryType) (m : manifest.ManifestType)
    (metaData : datastore.QueryReturnDataType) :
  GetManifestData growSpare sqlGetManifestData ds query = Ok (m, metaData) ->
  datastore.RangeBegin metaData = 0 /\ datastore.RangeEnd metaData = 0.
Proof.
  unfold GetManifestData.
  destruct (sqlGetManifestData query) as [sqlStmt [err|]]; [discriminate|].
  destruct (QueryContent ds sqlStmt) as [rows|err]; [|discriminate].
  destruct (scanManifest growSpare (scans rows) manifest.InitManifest)
    as [all|err]; [|discriminate].
  destruct (processRangeValues _ _ _ _) as [[first last] [err|]]; [discriminate|].
  intros H.
  apply bind_Ok in H as (objects & _ & H).
  apply bind_Ok in H as (head & _ & H).
  apply bind_Ok in H as (tail & _ & H).
  injection H as _ <-. split; reflexivity.
Qed.


(** The fetch loop, by what the object store answers. *)
Lemma fetchObjects_all (ds : Sqlite3DatastoreType)
    (entries : list datastore.CollectionRawDataType) (objs : list STIXObject)
    (b : bundle.BundleType STIXObject) :
  fetched GetObject ds entries objs ->
  fetchObjects STIXObject GetObject ds entries b =
  inl {| bundle.Objects := bundle.Objects b ++ objs |}.
Proof.
  intros Hf. revert b. induction Hf as [|v obj entries objs Hv _ IH]; intros b; cbn.
  - rewrite app_nil_r. now destruct b.
  - rewrite Hv, IH. unfold bundle.AddObject. cbn. now rewrite <- app_assoc.
Qed.

Lemma fetchObjects_first_failure (ds : Sqlite3DatastoreType)
    (pre post : list datastore.CollectionRawDataType)
    (v : datastore.CollectionRawDataType) (objs : list STIXObject) (err : error)
    (b : bundle.BundleType STIXObject) :
  fetched GetObject ds pre objs ->
  GetObject ds (datastore.STIXID v) (datastore.STIXVersion v) = inr err ->
  fetchObjects STIXObject GetObject ds (pre ++ v :: post) b = inr err.
Proof.
  intros Hf Hv. revert b. induction Hf as [|w obj pre objs Hw _ IH]; intros b; cbn.
  - now rewrite Hv.
  - rewrite Hw. apply IH.
Qed.

Lemma fetchObjects_inl (ds : Sqlite3DatastoreType)
    (entries : list datastore.CollectionRawDataType)
    (b b' : bundle.BundleType STIXObject) :
  fetchObjects STIXObject GetObject ds entries b = inl b' ->
  exists objs,
    fetched GetObject ds entries objs /\
    bundle.Objects b' = bundle.Objects b ++ objs.
Proof.
  revert b. induction entries as [|v entries IH]; intros b; cbn.
  - intros [= <-]. exists []. split; [constructor|now rewrite app_nil_r].
  - destruct (GetObject ds (datastore.STIXID v) (datastore.STIXVersion v))
      as [obj|err] eqn:Hv; [|discriminate].
    intros H. destruct (IH _ H) as (objs & Hf & Hb).
    exists (obj :: objs). split; [now constructor|].
    rewrite Hb. cbn. now rewrite <- app_assoc.
Qed.

(** C8: for the entries [e1..en] that [GetObjectList] returns, [GetBundle]
    fetches each payload by the entry's (STIX ID, version) pair in list
    order; when every fetch succeeds the bundle holds exactly
    [obj(e1)..obj(en)], in that order, and nothing else is ever returned as
    a bundle; the first fetch that fails ends the call with that error and
    no bundle. *)
Theorem GetBundle_in_list_order (ds : Sqlite3DatastoreType)
    (query : query.QueryType)
    (entries : GoSlice.t datastore.CollectionRawDataType)
    (metaData : datastore.QueryReturnDataType) :
  GetObjectList growSpare sqlGetObjectList ds query = Ok (entries, metaData) ->
  (forall objs,
     fetched GetObject ds (GoSlice.elems entries) objs ->
     GetBundle STIXObject growSpare sqlGetObjectList GetObject ds query =
     Ok ({| bundle.Objects := objs |}, metaData)) /\
  (forall pre v post objs err,
     GoSlice.elems entries = pre ++ v :: post ->
     fetched GetObject ds pre objs ->
     GetObject ds (datastore.STIXID v) (datastore.STIXVersion v) = inr err ->
     GetBundle STIXObject growSpare sqlGetObjectList GetObject ds query = Err err) /\
  (forall stixBundle metaData',
     GetBundle STIXObject growSpare sqlGetObjectList GetObject ds query =
     Ok (stixBundle, metaData') ->
     metaData' = metaData /\
     fetched GetObject ds (GoSlice.elems entries) (bundle.Objects stixBundle)).
Proof.
  intros Hlist. unfold GetBundle. rewrite Hlist. split; [|split].
  - intros objs Hf. now rewrite (fetchObjects_all _ _ _ _ Hf).
  - intros pre v post objs err -> Hf Hv.
    now rewrite (fetchObjects_first_failure _ _ _ _ _ _ _ Hf Hv).
  - intros stixBundle metaData'.
    destruct (fetchObjects _ _ _ _ _) as [b|err] eqn:Hb; [|discriminate].
    intros [= <- <-]. destruct (fetchObjects_inl _ _ _ _ Hb) as (objs & Hf & Ho).
    cbn in Ho. rewrite Ho. split; [reflexivity|exact Hf].
Qed.

End Pipeline.

(* ====================================================================== *)
(** ** The pipeline on the sample data *)
(* ====================================================================== *)


(** [GetBundle] over the ten rows: the first two objects in order, and no
    bundle once the fetch of the third fails. *)
Lemma GetBundle_in_list_order_witness :
  GetBundle string Sample.doubling Sample.contentStmt Sample.getObject
    (Sample.dsOf Sample.tenRows) (Sample.queryOf 0 1 0) =
  Ok ({| bundle.Objects := ["indicator--0@2017-12-10"; "indicator--1@2017-12-11"] |},
      {| datastore.Size := 10; datastore.DateAddedFirst := "2018-01-10";
         datastore.DateAddedLast := "2018-01-11";
         datastore.RangeBegin := 0; datastore.RangeEnd := 1 |}) /\
  GetBundle string Sample.doubling Sample.contentStmt Sample.getObject
    (Sample.dsOf Sample.tenRows) (Sample.queryOf 0 0 4) =
  Err (errorsNew "object not found").
Proof.
  split.
  - epose proof (GetBundle_in_list_order string Sample.doubling Sample.contentStmt
                   Sample.getObject (Sample.dsOf Sample.tenRows)
                   (Sample.queryOf 0 1 0) _ _ ltac:(lazy; reflexivity))
      as [Hall _].
    apply Hall. repeat constructor.
  - epose proof (GetBundle_in_list_order string Sample.doubling Sample.contentStmt
                   Sample.getObject (Sample.dsOf Sample.tenRows)
                   (Sample.queryOf 0 0 4) _ _ ltac:(lazy; reflexivity))
      as [_ [Hfail _]].
    apply (Hfail [rawDataOf (Sample.row "0"); rawDataOf (Sample.row "1")]
             (rawDataOf (Sample.row "2")) [rawDataOf (Sample.row "3")]
             ["indicator--0@2017-12-10"; "indicator--1@2017-12-11"]).
    + reflexivity.
    + repeat constructor.
    + reflexivity.
Defined.

(** C4: over an empty matching set [GetManifestData] does not report an
    empty result: it resolves the range over no data and returns the error
    for a start beyond the data, where [GetObjectList] returns
    "no records returned" for the same request. *)
Theorem GetManifestData_empty_set_resolves_range :
  GetManifestData Sample.doubling Sample.contentStmt
    (Sample.dsOf []) (Sample.queryOf 0 0 0) = Err errOutOfScope /\
  processRangeValues 0 0 0 0 = (0, 0, Some errOutOfScope) /\
  errOutOfScope <> errorsNew "no records returned" /\
  GetObjectList Sample.doubling Sample.contentStmt
    (Sample.dsOf []) (Sample.queryOf 0 0 0) = Err (errorsNew "no records returned").
Proof. repeat split; try reflexivity. discriminate. Qed.

(** C5: for the rows 2 to 4 of ten, [GetManifestData] returns the three
    entries of the window with the size and both timestamps, but
    [RangeBegin] and [RangeEnd] are left at zero; [GetObjectList] reports
    2 and 4 for the same request. *)
Theorem GetManifestData_leaves_range_unset :
  match GetManifestData Sample.doubling Sample.contentStmt
          (Sample.dsOf Sample.tenRows) (Sample.queryOf 2 4 0) with
  | Ok (m, metaData) =>
      GoSlice.elems (manifest.Objects m) =
      map entryOf (firstn 3 (skipn 2 Sample.tenRows)) /\
      datastore.Size metaData = 10 /\
      datastore.DateAddedFirst metaData = "2018-01-12" /\
      datastore.DateAddedLast metaData = "2018-01-14" /\
      datastore.RangeBegin metaData = 0 /\
      datastore.RangeEnd metaData = 0
  | _ => False
  end /\
  processRangeValues 2 4 0 10 = (2, 5, None) /\
  match GetObjectList Sample.doubling Sample.contentStmt
          (Sample.dsOf Sample.tenRows) (Sample.queryOf 2 4 0) with
  | Ok (_, metaData) =>
      datastore.RangeBegin metaData = 2 /\ datastore.RangeEnd metaData = 4
  | _ => False
  end.
Proof. vm_compute. repeat split; reflexivity. Qed.

(** At the largest [last], with no maximum forced, the window ends at the
    smallest [int], whatever the data. *)
Lemma processRangeValues_last_maxInt (first size : Z) :
  0 <= first -> first < size -> first <= GoInt.maxInt ->
  processRangeValues first GoInt.maxInt 0 size = (first, GoInt.minInt, None).
Proof.
  intros Hf Hfs Hfi.
  rewrite processRangeValues_checks_pass by assumption. cbn zeta.
  change (GoInt.maxInt =? 0) with false. cbn [andb negb]. rewrite add_maxInt_1.
  pose proof minInt_neg as Hmin. rewrite (Z.gtb_ltb GoInt.minInt size).
  destruct (Z.ltb_spec size GoInt.minInt); [lia|reflexivity].
Qed.

(** A window that ends below its start makes [GetObjectList] panic. *)
Lemma GetObjectList_inverted_window (growSpare : nat -> nat)
    (sqlGetObjectList : query.QueryType -> string * option error)
    (ds : Sqlite3DatastoreType) (query : query.QueryType) (sqlStmt : string)
    (rows : Rows ContentRow) (all : GoSlice.t datastore.CollectionRawDataType)
    (first last : Z) :
  sqlGetObjectList query = (sqlStmt, None) ->
  QueryContent ds sqlStmt = inl rows ->
  scanObjectList growSpare (scans rows) GoSlice.nilSlice = inl all ->
  GoSlice.len all <> 0 ->
  processRangeValues (query.RangeBegin query) (query.RangeEnd query)
    (query.RangeMax query) (GoSlice.len all) = (first, last, None) ->
  last < first ->
  GetObjectList growSpare sqlGetObjectList ds query = Panic.
Proof.
  intros Hs Hq Hscan Hlen Hrange Hinv. unfold GetObjectList.
  rewrite Hs, Hq, Hscan. cbn zeta.
  destruct (Z.eqb_spec (GoSlice.len all) 0); [contradiction|].
  rewrite Hrange, (slice_Panic all first last Hinv). reflexivity.
Qed.

(** C10: at the largest [last] the increment wraps around: the window that
    is returned without error ends below its start, or beyond the data when
    a maximum is forced, and slicing by it panics in [GetObjectList] and in
    [GetManifestData]. *)
Theorem processRangeValues_window_after_overflow :
  processRangeValues 0 GoInt.maxInt 0 10 = (0, GoInt.minInt, None) /\
  GoInt.minInt < 0 /\
  GetObjectList Sample.doubling Sample.contentStmt
    (Sample.dsOf Sample.tenRows) (Sample.queryOf 0 GoInt.maxInt 0) = Panic /\
  GetManifestData Sample.doubling Sample.contentStmt
    (Sample.dsOf Sample.tenRows) (Sample.queryOf 0 GoInt.maxInt 0) = Panic /\
  processRangeValues 2 GoInt.maxInt 100 10 = (2, 102, None) /\
  10 < 102.
Proof. vm_compute. repeat split; reflexivity || discriminate. Qed.

(* ====================================================================== *)
(** ** The collection catalog: media types *)
(* ====================================================================== *)

Lemma Split_length (s : string) (sep : ascii) :
  (1 <= List.length (Split s sep) <= String.length s + 1)%nat.
Proof.
  induction s as [|c s IH]; cbn; [lia|].
  destruct (Ascii.eqb c sep); cbn; [lia|].
  destruct (Split s sep); cbn in *; lia.
Qed.

Lemma MediaTypes_fold (l : list string) (c : collection.CollectionType) :
  collection.MediaTypes (fold_left collection.AddMediaType l c) =
  collection.MediaTypes c ++ l.
Proof.
  revert c. induction l as [|mt l IH]; intros c; cbn.
  - now rewrite app_nil_r.
  - rewrite IH. cbn. now rewrite <- app_assoc.
Qed.

Lemma lastOpt_snoc {A : Type} (l : list A) (x : A) : lastOpt (l ++ [x]) = Some x.
Proof. unfold lastOpt. rewrite map_app. cbn [map]. now rewrite last_last. Qed.

Lemma listIndex_before {A : Type} (done rest : list A) (x : A) :
  Z.of_nat (List.length (done ++ x :: rest)) <= GoInt.maxInt ->
  listIndex ((done ++ [x]) ++ rest) (GoInt.sub (Z.of_nat (List.length (done ++ [x]))) 1)
  = Ok x.
Proof.
  intros Hlen. pose proof minInt_neg as Hmin.
  rewrite !length_app in *. cbn [List.length] in *.
  rewrite sub_exact by lia. unfold listIndex. rewrite !length_app. cbn [List.length].
  destruct (Z.leb_spec 0 (Z.of_nat (List.length done + 1) - 1)); [|lia].
  destruct (Z.ltb_spec (Z.of_nat (List.length done + 1) - 1)
              (Z.of_nat (List.length done + 1 + List.length rest))); [|lia].
  cbn [andb].
  replace (Z.to_nat (Z.of_nat (List.length done + 1) - 1)) with (List.length done) by lia.
  rewrite <- app_assoc. rewrite nth_error_app2 by lia. now rewrite Nat.sub_diag.
Qed.

(** The loop over the media types keeps an entry unless it repeats the one
    before it. *)
Lemma recordMediaTypes_collapse (rest done : list string)
    (c : collection.CollectionType) :
  Z.of_nat (List.length (done ++ rest)) <= GoInt.maxInt ->
  recordMediaTypes (done ++ rest) (Z.of_nat (List.length done)) rest c =
  Ok (fold_left collection.AddMediaType (collapseRepeats (lastOpt done) rest) c).
Proof.
  revert done c. induction rest as [|mt rest IH]; intros done c Hlen; [reflexivity|].
  cbn [recordMediaTypes collapseRepeats].
  assert (Hnext : forall c',
    recordMediaTypes (done ++ mt :: rest) (Z.of_nat (List.length done) + 1) rest c' =
    Ok (fold_left collection.AddMediaType (collapseRepeats (Some mt) rest) c')).
  { intros c'. specialize (IH (done ++ [mt]) c').
    replace ((done ++ [mt]) ++ rest) with (done ++ mt :: rest) in IH
      by now rewrite <- app_assoc.
    replace (Z.of_nat (List.length (done ++ [mt])))
      with (Z.of_nat (List.length done) + 1) in IH
      by (rewrite length_app; cbn [List.length]; lia).
    rewrite lastOpt_snoc in IH. apply IH. exact Hlen. }
  destruct done as [|p done] using rev_ind.
  - cbn. apply Hnext.
  - clear IHdone. rewrite lastOpt_snoc.
    rewrite Z.gtb_ltb.
    destruct (Z.ltb_spec 0 (Z.of_nat (List.length (done ++ [p])))) as [Hpos|Hpos].
    2:{ rewrite length_app in Hpos. cbn [List.length] in Hpos. lia. }
    rewrite listIndex_before.
    2:{ rewrite <- app_assoc in Hlen. cbn [app] in Hlen.
        rewrite !length_app in *. cbn [List.length] in *. lia. }
    cbn [bind]. rewrite Hnext. now destruct (String.eqb mt p).
Qed.

Section Catalog.

Variable sqlGetAllCollections : string -> string * option error.

Lemma collectionOfRow_media_types (r : CollectionRow) :
  goString (mediaType r) ->
  exists c, collectionOfRow r = Ok c /\ collection.MediaTypes c = mediaTypesOf r.
Proof.
  intros Hr. unfold collectionOfRow. cbn zeta.
  pose proof (Split_length (mediaType r) ",") as Hsplit.
  match goal with
  | |- context [recordMediaTypes ?mts 0 ?mts ?c] =>
      pose proof (recordMediaTypes_collapse mts [] c) as Hloop; set (base := c) in *
  end.
  cbn [app List.length Z.of_nat] in Hloop. rewrite Hloop by (unfold goString in Hr; lia).
  eexists. split; [reflexivity|]. rewrite MediaTypes_fold.
  assert (Hbase : collection.MediaTypes base = []).
  { subst base. now destruct (enabled r =? 1), (hidden r =? 1), (iCanRead r =? 1),
      (iCanWrite r =? 1). }
  now rewrite Hbase.
Qed.

Lemma scanCollections_media_types (matching : list CollectionRow)
    (acc : collection.CollectionsType) :
  Forall (fun r => goString (mediaType r)) matching ->
  exists cs,
    scanCollections (map inl matching) acc = Ok cs /\
    map collection.MediaTypes (collection.Collections cs) =
    map collection.MediaTypes (collection.Collections acc) ++ map mediaTypesOf matching.
Proof.
  intros Hall. revert acc. induction Hall as [|r matching Hr _ IH]; intros acc.
  - exists acc. cbn. now rewrite app_nil_r.
  - cbn [map scanCollections].
    destruct (collectionOfRow_media_types r Hr) as (c & -> & Hc). cbn [bind].
    destruct (IH {| collection.Collections := collection.Collections acc ++ [c] |})
      as (cs & -> & Hcs).
    exists cs. split; [reflexivity|]. rewrite Hcs. cbn [collection.Collections].
    rewrite map_app, <- app_assoc. cbn [map app]. now rewrite Hc.
Qed.

(** C7: [getCollections] rebuilds the media types of every collection from
    the comma-delimited list of its row with exactly the entries dropped that
    equal the entry immediately before them: repeats that follow each other
    collapse, repeats further apart stay. In particular ["a,a,b"] gives
    [a; b] and ["a,b,a"] gives [a; b; a]. *)
Theorem getCollections_media_types (ds : Sqlite3DatastoreType)
    (whichCollections : string) (rows : Rows CollectionRow)
    (matching : list CollectionRow) :
  QueryCollections ds (fst (sqlGetAllCollections whichCollections)) = inl rows ->
  scans rows = map inl matching ->
  rowsErr rows = None ->
  Forall (fun r => goString (mediaType r)) matching ->
  (exists allCollections,
     getCollections sqlGetAllCollections ds whichCollections = Ok allCollections /\
     map collection.MediaTypes (collection.Collections allCollections) =
     map (fun r => collapseRepeats None (Split (mediaType r) ",")) matching) /\
  collapseRepeats None (Split "a,a,b" ",") = ["a"; "b"] /\
  collapseRepeats None (Split "a,b,a" ",") = ["a"; "b"; "a"].
Proof.
  intros Hq Hrows Herr Hall. split; [|split; reflexivity].
  unfold getCollections.
  destruct (sqlGetAllCollections whichCollections) as [stmt e]. cbn [fst] in Hq.
  rewrite Hq, Hrows.
  destruct (scanCollections_media_types matching collection.InitCollections Hall)
    as (cs & -> & Hcs).
  cbn [bind]. rewrite Herr. exists cs. split; [reflexivity|exact Hcs].
Qed.

End Catalog.

(** [getCollections] over two rows with the lists ["a,a,b"] and ["a,b,a"]. *)
Lemma getCollections_media_types_witness :
  exists allCollections,
    getCollections Sample.collectionsStmt Sample.dsCollections "all" =
    Ok allCollections /\
    map collection.MediaTypes (collection.Collections allCollections) =
    [["a"; "b"]; ["a"; "b"; "a"]].
Proof.
  apply (getCollections_media_types Sample.collectionsStmt Sample.dsCollections "all"
           _ Sample.twoCollections eq_refl eq_refl eq_refl).
  repeat constructor.
Defined.

(* ====================================================================== *)
(** ** The collection catalog: adding a collection *)
(* ====================================================================== *)

Section WritePath.

Variable sqlAddCollection : string * option error.
Variable sqlAddCollectionMediaType : string * option error.

Lemma Exec_accepted (ds : Sqlite3DatastoreType) (stmt : string)
    (args : list SqlValue) :
  rejects (engine (DB ds)) (stored (DB ds)) stmt args = None ->
  Exec ds stmt args = (storing ds [(stmt, args)], None).
Proof. intros H. unfold Exec. now rewrite H. Qed.

Lemma Exec_rejected (ds : Sqlite3DatastoreType) (stmt : string)
    (args : list SqlValue) (err : error) :
  rejects (engine (DB ds)) (stored (DB ds)) stmt args = Some err ->
  Exec ds stmt args = (ds, Some err).
Proof. intros H. unfold Exec. now rewrite H. Qed.

(** The media type loop stops at the first insert the engine rejects and
    leaves what it stored before. *)
Lemma addCollectionMediaTypes_stops (objID : string) (pre post : list string)
    (media : string) (err : error) (ds : Sqlite3DatastoreType) :
  acceptsAll (engine (DB ds)) (stored (DB ds))
    (map (mediaTypeRow (fst sqlAddCollectionMediaType) objID) pre) ->
  rejects (engine (DB ds))
    (stored (DB ds) ++ map (mediaTypeRow (fst sqlAddCollectionMediaType) objID) pre)
    (fst sqlAddCollectionMediaType) (mediaTypeArgs objID media) = Some err ->
  addCollectionMediaTypes sqlAddCollectionMediaType ds objID (pre ++ media :: post) =
  (storing ds (map (mediaTypeRow (fst sqlAddCollectionMediaType) objID) pre),
   Some (fmtErrorf "database execution error inserting collection media type" err)).
Proof.
  revert ds. destruct sqlAddCollectionMediaType as [s2 e2]. cbn [fst].
  induction pre as [|m pre IH]; intros ds Hacc Hrej;
    cbn [map app addCollectionMediaTypes acceptsAll] in *.
  - fold (mediaTypeArgs objID media). rewrite app_nil_r in Hrej.
    rewrite (Exec_rejected _ _ _ _ Hrej). unfold storing. rewrite app_nil_r.
    now destruct ds as [[e st]].
  - fold (mediaTypeArgs objID m). destruct Hacc as [Hm Hacc].
    change (fst (mediaTypeRow s2 objID m)) with s2 in Hm.
    change (snd (mediaTypeRow s2 objID m)) with (mediaTypeArgs objID m) in Hm.
    rewrite (Exec_accepted ds _ _ Hm). cbv iota beta.
    fold (mediaTypeRow s2 objID m).
    etransitivity; [apply (IH (storing ds [mediaTypeRow s2 objID m]))|].
    + exact Hacc.
    + cbn. rewrite <- app_assoc. exact Hrej.
    + unfold storing. cbn. now rewrite <- app_assoc.
Qed.

(** C9: when the engine stores the collection's row and the media type rows
    of [pre] but rejects the next media type, [addCollection] returns an
    error, and the datastore it leaves holds the collection's row and the
    media type rows stored before the failure, on top of what it held:
    nothing is taken back. *)
Theorem addCollection_keeps_stored_rows (ds : Sqlite3DatastoreType)
    (dateAdded : string) (obj : collection.CollectionType)
    (pre post : list string) (media : string) (err : error) :
  let base := collectionRow (fst sqlAddCollection) dateAdded obj in
  let mediaRows :=
    map (mediaTypeRow (fst sqlAddCollectionMediaType) (collection.ID obj)) pre in
  collection.MediaTypes obj = pre ++ media :: post ->
  acceptsAll (engine (DB ds)) (stored (DB ds)) (base :: mediaRows) ->
  rejects (engine (DB ds)) (stored (DB ds) ++ base :: mediaRows)
    (fst sqlAddCollectionMediaType) (mediaTypeArgs (collection.ID obj) media)
  = Some err ->
  exists ds',
    addCollection sqlAddCollection sqlAddCollectionMediaType ds dateAdded obj =
    (ds', Some (fmtErrorf "database execution error inserting collection media type"
                  err)) /\
    stored (DB ds') = stored (DB ds) ++ base :: mediaRows /\
    In base (stored (DB ds')) /\
    (forall r, In r (stored (DB ds)) -> In r (stored (DB ds'))).
Proof.
  intros base mediaRows Hmedia [Hbase Hacc] Hrej.
  exists (storing ds (base :: mediaRows)).
  assert (Hrun :
    addCollection sqlAddCollection sqlAddCollectionMediaType ds dateAdded obj =
    (storing ds (base :: mediaRows),
     Some (fmtErrorf "database execution error inserting collection media type" err))).
  { unfold addCollection. subst base mediaRows.
    destruct sqlAddCollection as [s1 e1]. cbn [fst] in *.
    fold (collectionArgs dateAdded obj).
    change (fst (collectionRow s1 dateAdded obj)) with s1 in Hbase.
    change (snd (collectionRow s1 dateAdded obj))
      with (collectionArgs dateAdded obj) in Hbase.
    rewrite (Exec_accepted ds _ _ Hbase), Hmedia. cbv iota beta.
    fold (collectionRow s1 dateAdded obj).
    etransitivity;
      [apply (addCollectionMediaTypes_stops (collection.ID obj) pre post media err)|].
    - exact Hacc.
    - cbn. rewrite <- app_assoc. exact Hrej.
    - unfold storing. cbn. now rewrite <- app_assoc. }
  split; [exact Hrun|]. cbn. split; [reflexivity|]. split.
  - apply in_or_app. right. now left.
  - intros r Hr. apply in_or_app. now left.
Qed.

End WritePath.

(** A collection with three media types on an engine that rejects the
    second one: the collection's row and the first media type stay. *)
Lemma addCollection_keeps_stored_rows_witness :
  exists ds',
    addCollection ("INSERT collection", None) ("INSERT media", None)
      Sample.dsWrite "2018-01-01T00:00:00.000000Z" Sample.twoMediaCollection =
    (ds', Some (fmtErrorf "database execution error inserting collection media type"
                  (errorsNew "constraint failed"))) /\
    stored (DB ds') =
    [("INSERT collection",
      [SqlText "2018-01-01T00:00:00.000000Z"; SqlText "c1"; SqlText "t";
       SqlText "d"; SqlBool true; SqlBool false]);
     ("INSERT media", [SqlText "c1"; SqlInt 1])].
Proof.
  destruct (addCollection_keeps_stored_rows
              ("INSERT collection", None) ("INSERT media", None)
              Sample.dsWrite "2018-01-01T00:00:00.000000Z" Sample.twoMediaCollection
              ["application/vnd.oasis.stix+json"] ["text/plain"] "application/json"
              (errorsNew "constraint failed"))
    as (ds' & Hrun & Hstored & _).
  - reflexivity.
  - cbn. repeat split.
  - reflexivity.
  - exists ds'. split; [exact Hrun|exact Hstored].
Defined.

(* ====================================================================== *)
(** ** Further properties of processRangeValues *)
(* ====================================================================== *)

(** The call succeeds exactly on the requests that start at a row of the
    data and are well ordered, and then the window starts at [first]; a
    refused request comes back as [(0, 0, err)] with one of the three
    errors. *)
Theorem processRangeValues_succeeds_iff (first last max size : Z) :
  ((0 <= first /\ first <= last /\ first < size) <->
   exists stop, processRangeValues first last max size = (first, stop, None)) /\
  (forall a b, processRangeValues first last max size = (a, b, None) -> a = first) /\
  (forall a b e,
     processRangeValues first last max size = (a, b, Some e) ->
     a = 0 /\ b = 0 /\
     (e = errNegativeStart \/ e = errStartAfterEnd \/ e = errOutOfScope)).
Proof.
  split; [split|split].
  - intros (Hf & Hfl & Hfs). rewrite processRangeValues_checks_pass by assumption.
    cbn zeta. eauto.
  - intros [stop H]. revert H. unfold processRangeValues.
    destruct (Z.ltb_spec first 0); [discriminate|].
    rewrite (Z.gtb_ltb first last). destruct (Z.ltb_spec last first); [discriminate|].
    rewrite (Z.geb_leb first size). destruct (Z.leb_spec size first); [discriminate|].
    lia.
  - intros a b. unfold processRangeValues.
    destruct (first <? 0); [discriminate|].
    destruct (first >? last); [discriminate|].
    destruct (first >=? size); [discriminate|].
    cbn zeta. now intros [= <- _].
  - intros a b e. unfold processRangeValues.
    destruct (first <? 0); [intros [= <- <- <-]; auto|].
    destruct (first >? last); [intros [= <- <- <-]; auto|].
    destruct (first >=? size); [intros [= <- <- <-]; auto|].
    discriminate.
Qed.

(** When no range is requested ([first] and [last] both zero) and a maximum
    is forced, the window is the first [max] rows, or all of them when there
    are fewer: a request for row 0 alone cannot be told from no request. *)
Theorem processRangeValues_no_range_requested (max size : Z) :
  0 < max -> max <= GoInt.maxInt -> 0 < size ->
  processRangeValues 0 0 max size = (0, Z.min max size, None).
Proof.
  intros Hm Hmi Hs.
  rewrite processRangeValues_exact by lia.
  unfold resolve_spec. cbn [Z.eqb andb snd].
  destruct (Z.ltb_spec 0 max); [|lia]. cbn [andb]. rewrite !Z.add_0_l, !Z.sub_0_r.
  destruct (Z.ltb_spec size max); destruct (Z.ltb_spec max size);
    destruct (Z.ltb_spec max max); cbn [snd]; f_equal; f_equal; lia.
Qed.

(** Rows 0 to 0 of twelve under a maximum of five: five rows. *)
Lemma processRangeValues_no_range_requested_witness :
  processRangeValues 0 0 5 12 = (0, Z.min 5 12, None).
Proof. apply (processRangeValues_no_range_requested 5 12); by_numerals. Defined.

(** A negative maximum counts as a forced one: every request that passes
    the checks gets the window [(first, first + max)], which ends before it
    starts. *)
Theorem processRangeValues_negative_max (first last max size : Z) :
  0 <= first -> first <= last -> first < size ->
  GoInt.minInt <= max -> max < 0 -> last < GoInt.maxInt ->
  processRangeValues first last max size = (first, first + max, None) /\
  first + max < first.
Proof.
  intros Hf Hfl Hfs Hmi Hm Hl. split; [|lia].
  rewrite processRangeValues_checks_pass by assumption. cbn zeta.
  pose proof minInt_neg as Hmin.
  destruct (Z.eqb_spec max 0) as [|_]; [lia|].
  destruct (Z.eqb_spec last 0) as [Hl0|Hl0], (Z.eqb_spec first 0) as [Hf0|Hf0];
    cbn [andb negb]; try rewrite (add_exact last 1) by lia;
    rewrite (add_exact first max) by lia; rewrite !Z.gtb_ltb;
    repeat match goal with
    | |- context [size <? ?b] => destruct (Z.ltb_spec size b)
    end;
    try rewrite sub_exact by lia;
    repeat match goal with
    | |- context [max <? ?b] => destruct (Z.ltb_spec max b)
    end; try reflexivity; lia.
Qed.

(** Rows 2 to 4 of ten under a maximum of -3. *)
Lemma processRangeValues_negative_max_witness :
  processRangeValues 2 4 (-3) 10 = (2, 2 + -3, None) /\ 2 + -3 < 2.
Proof. apply (processRangeValues_negative_max 2 4 (-3) 10); by_numerals. Defined.

(* ====================================================================== *)
(** ** Further facts on slices *)
(* ====================================================================== *)

Section SliceAccess.

Context {A : Type}.

Lemma len_le_cap (s : GoSlice.t A) : GoSlice.len s <= GoSlice.cap s.
Proof. unfold GoSlice.len, GoSlice.cap. lia. Qed.

(** A window cut within the capacity has as many entries as it is wide. *)
Lemma window_length (s : GoSlice.t A) (first last : Z) :
  0 <= first -> first <= last -> last <= GoSlice.cap s ->
  Z.of_nat (List.length (window s first last)) = last - first.
Proof.
  intros Hf Hfl Hl. unfold window, GoSlice.cap in *.
  rewrite length_firstn, length_skipn, length_app. lia.
Qed.

(** Slicing a window that lies within the capacity, and reading its first
    and its last entry, succeeds when the window is not empty. *)
Lemma window_access (s : GoSlice.t A) (first last : Z) :
  0 <= first -> first < last -> last <= GoSlice.cap s -> last <= GoInt.maxInt ->
  exists r head tail,
    GoSlice.slice s first last = Ok r /\
    GoSlice.elems r = window s first last /\
    GoSlice.len r = last - first /\
    GoSlice.index r 0 = Ok head /\
    GoSlice.index r (GoInt.sub (GoSlice.len r) 1) = Ok tail.
Proof.
  intros Hf Hfl Hl Hli. pose proof minInt_neg as Hmin.
  assert (Hslice : exists r, GoSlice.slice s first last = Ok r /\
                             GoSlice.elems r = window s first last).
  { unfold GoSlice.slice.
    destruct (Z.leb_spec 0 first); [|lia].
    destruct (Z.leb_spec first last); [|lia].
    destruct (Z.leb_spec last (GoSlice.cap s)); [|lia].
    cbn [andb]. eexists. split; reflexivity. }
  destruct Hslice as (r & Hr & Hel).
  assert (Hlen : GoSlice.len r = last - first).
  { unfold GoSlice.len. rewrite Hel. apply window_length; lia. }
  assert (Hidx : forall i, 0 <= i < GoSlice.len r -> exists x, GoSlice.index r i = Ok x).
  { intros i Hi. unfold GoSlice.index.
    destruct (Z.leb_spec 0 i); [|lia].
    destruct (Z.ltb_spec i (GoSlice.len r)); [|lia]. cbn [andb].
    destruct (nth_error (GoSlice.elems r) (Z.to_nat i)) as [x|] eqn:Hn; [eauto|].
    apply nth_error_None in Hn. unfold GoSlice.len in *. lia. }
  destruct (Hidx 0 ltac:(lia)) as [head Hhead].
  destruct (Hidx (GoSlice.len r - 1) ltac:(lia)) as [tail Htail].
  exists r, head, tail. rewrite sub_exact by lia. auto.
Qed.

End SliceAccess.

(** The end of the window of the specification is an [int] when [last + 1]
    and [max] are. *)
Lemma resolve_spec_end_le (first last max size : Z) :
  0 <= first -> first <= last -> 0 <= max ->
  snd (resolve_spec first last max size) <= Z.max (last + 1) max.
Proof.
  intros Hf Hfl Hm. unfold resolve_spec. cbn zeta.
  destruct (Z.eqb_spec first 0), (Z.eqb_spec last 0), (Z.ltb_spec 0 max);
    cbn [andb fst snd];
    repeat match goal with
    | |- context [size <? ?b] => destruct (Z.ltb_spec size b)
    | |- context [max <? ?b] => destruct (Z.ltb_spec max b)
    end; cbn [fst snd]; lia.
Qed.

(** For a request that cannot overflow, a window returned without error is
    not empty, lies within the data and ends at an [int]. *)
Lemma processRangeValues_safe_window (first last max size a b : Z) :
  0 <= max -> max <= GoInt.maxInt -> last < GoInt.maxInt ->
  processRangeValues first last max size = (a, b, None) ->
  0 <= a /\ a < b /\ b <= size /\ b <= GoInt.maxInt /\
  (0 < max -> b - a <= max).
Proof.
  intros Hm Hmi Hl Hp.
  destruct (processRangeValues_window_in_bounds _ _ _ _ _ _ Hm Hmi Hl Hp)
    as (Ha & Ha0 & Hab & Hbs).
  assert (Hchecks : 0 <= first /\ first <= last /\ first < size).
  { revert Hp. unfold processRangeValues.
    destruct (Z.ltb_spec first 0); [discriminate|].
    rewrite (Z.gtb_ltb first last). destruct (Z.ltb_spec last first); [discriminate|].
    rewrite (Z.geb_leb first size). destruct (Z.leb_spec size first); [discriminate|].
    lia. }
  destruct Hchecks as (Hf & Hfl & Hfs).
  rewrite processRangeValues_exact in Hp by assumption.
  pose proof (resolve_spec_end_le first last max size Hf Hfl Hm) as Hend.
  destruct (resolve_spec_bounds first last max size Hf Hfl Hfs Hm) as (_ & _ & Hmax).
  revert Hp Hend Hmax. generalize (snd (resolve_spec first last max size)).
  intros stop [= <- <-] Hend Hmax. repeat split; lia.
Qed.

(* ====================================================================== *)
(** ** Further properties of the query pipeline *)
(* ====================================================================== *)

Section PipelineSafety.

Variable STIXObject : Type.
Variable growSpare : nat -> nat.
Variable sqlGetObjectList : query.QueryType -> string * option error.
Variable sqlGetManifestData : query.QueryType -> string * option error.
Variable GetObject : Sqlite3DatastoreType -> string -> string -> STIXObject + error.

(** What a successful [GetObjectList] went through. *)
Lemma GetObjectList_Ok (ds : Sqlite3DatastoreType) (query : query.QueryType)
    (entries : GoSlice.t datastore.CollectionRawDataType)
    (metaData : datastore.QueryReturnDataType) :
  GetObjectList growSpare sqlGetObjectList ds query = Ok (entries, metaData) ->
  exists matching all first last,
    GoSlice.elems all = map rawDataOf matching /\
    processRangeValues (query.RangeBegin query) (query.RangeEnd query)
      (query.RangeMax query) (GoSlice.len all) = (first, last, None) /\
    GoSlice.slice all first last = Ok entries /\
    GoSlice.elems entries <> [] /\
    datastore.Size metaData = GoSlice.len all /\
    datastore.RangeBegin metaData = first /\
    datastore.RangeEnd metaData = GoInt.sub last 1.
Proof.
  unfold GetObjectList.
  destruct (sqlGetObjectList query) as [sqlStmt [err|]]; [discriminate|].
  destruct (QueryContent ds sqlStmt) as [rows|err]; [|discriminate].
  destruct (scanObjectList growSpare (scans rows) GoSlice.nilSlice)
    as [all|err] eqn:Hscan; [|discriminate].
  destruct (scanObjectList_inl _ _ _ _ Hscan) as (matching & _ & Hall).
  cbn zeta. destruct (GoSlice.len all =? 0); [discriminate|].
  destruct (processRangeValues _ _ _ _) as [[first last] [err|]] eqn:Hrange;
    [discriminate|].
  intros H.
  apply bind_Ok in H as (r & Hslice & H).
  apply bind_Ok in H as (head & Hhead & H).
  apply bind_Ok in H as (tail & _ & H).
  injection H as <- <-.
  apply index_Ok in Hhead as [_ Hhd].
  exists matching, all, first, last. repeat split; try assumption.
  intros Hnil. now rewrite Hnil in Hhd.
Qed.

(** Whatever the rows and the request, [GetObjectList] does not panic when
    the request's end is below the largest [int] and the forced maximum is
    not negative: it returns the window or an error. *)
Theorem GetObjectList_returns (ds : Sqlite3DatastoreType) (query : query.QueryType) :
  query.RangeEnd query < GoInt.maxInt ->
  0 <= query.RangeMax query -> query.RangeMax query <= GoInt.maxInt ->
  returns (GetObjectList growSpare sqlGetObjectList ds query).
Proof.
  intros Hend Hmax Hmaxi. unfold GetObjectList.
  destruct (sqlGetObjectList query) as [sqlStmt [err|]]; [exact I|].
  destruct (QueryContent ds sqlStmt) as [rows|err]; [|exact I].
  destruct (scanObjectList growSpare (scans rows) GoSlice.nilSlice)
    as [all|err]; [|exact I].
  cbn zeta. destruct (GoSlice.len all =? 0); [exact I|].
  destruct (processRangeValues _ _ _ _) as [[first last] [err|]] eqn:Hrange;
    [exact I|].
  destruct (processRangeValues_safe_window _ _ _ _ _ _ Hmax Hmaxi Hend Hrange)
    as (Hf & Hfl & Hls & Hli & _).
  pose proof (len_le_cap all) as Hcap.
  destruct (window_access all first last) as (r & head & tail & Hr & _ & _ & Hh & Ht);
    try lia.
  rewrite Hr. cbn [bind]. rewrite Hh. cbn [bind]. rewrite Ht. exact I.
Qed.

(** The same for [GetManifestData]. *)
Theorem GetManifestData_returns (ds : Sqlite3DatastoreType)
    (query : query.QueryType) :
  query.RangeEnd query < GoInt.maxInt ->
  0 <= query.RangeMax query -> query.RangeMax query <= GoInt.maxInt ->
  returns (GetManifestData growSpare sqlGetManifestData ds query).
Proof.
  intros Hend Hmax Hmaxi. unfold GetManifestData.
  destruct (sqlGetManifestData query) as [sqlStmt [err|]]; [exact I|].
  destruct (QueryContent ds sqlStmt) as [rows|err]; [|exact I].
  destruct (scanManifest growSpare (scans rows) manifest.InitManifest)
    as [m|err]; [|exact I].
  cbn zeta.
  destruct (processRangeValues _ _ _ _) as [[first last] [err|]] eqn:Hrange;
    [exact I|].
  destruct (processRangeValues_safe_window _ _ _ _ _ _ Hmax Hmaxi Hend Hrange)
    as (Hf & Hfl & Hls & Hli & _).
  pose proof (len_le_cap (manifest.Objects m)) as Hcap.
  destruct (window_access (manifest.Objects m) first last)
    as (r & head & tail & Hr & _ & _ & Hh & Ht); try lia.
  rewrite Hr. cbn [bind]. rewrite Hh. cbn [bind]. rewrite Ht. exact I.
Qed.

(** With a negative forced maximum every request that passes the checks over
    some data makes [GetObjectList] panic. *)
Theorem GetObjectList_negative_max (ds : Sqlite3DatastoreType)
    (query : query.QueryType) (sqlStmt : string) (rows : Rows ContentRow)
    (matching : list ContentRow) :
  sqlGetObjectList query = (sqlStmt, None) ->
  QueryContent ds sqlStmt = inl rows ->
  scans rows = map inl matching ->
  0 <= query.RangeBegin query ->
  query.RangeBegin query <= query.RangeEnd query ->
  query.RangeBegin query < Z.of_nat (List.length matching) ->
  query.RangeEnd query < GoInt.maxInt ->
  GoInt.minInt <= query.RangeMax query -> query.RangeMax query < 0 ->
  GetObjectList growSpare sqlGetObjectList ds query = Panic.
Proof.
  intros Hs Hq Hrows Hf Hfl Hfs Hl Hmi Hm.
  destruct (scanObjectList growSpare (scans rows) GoSlice.nilSlice)
    as [all|err] eqn:Hscan.
  - destruct (scanObjectList_inl _ _ _ _ Hscan) as (matching' & Hrows' & Hall).
    assert (Hlen : GoSlice.len all = Z.of_nat (List.length matching)).
    { unfold GoSlice.len. rewrite Hall. cbn [GoSlice.elems GoSlice.nilSlice app].
      rewrite length_map. rewrite Hrows in Hrows'.
      apply (f_equal (@List.length _)) in Hrows'. rewrite !length_map in Hrows'.
      now rewrite Hrows'. }
    rewrite <- Hlen in Hfs.
    destruct (processRangeValues_negative_max _ _ (query.RangeMax query)
                (GoSlice.len all) Hf Hfl Hfs Hmi Hm Hl) as [Hrange Hinv].
    apply (GetObjectList_inverted_window growSpare sqlGetObjectList ds query sqlStmt
             rows all (query.RangeBegin query)
             (query.RangeBegin query + query.RangeMax query) Hs Hq Hscan);
      [lia|exact Hrange|exact Hinv].
  - exfalso. rewrite Hrows in Hscan. clear -Hscan.
    revert Hscan. generalize (@GoSlice.nilSlice datastore.CollectionRawDataType).
    induction matching as [|[[[d i] m] v] matching IH]; intros s; cbn;
      [discriminate|apply IH].
Qed.

End PipelineSafety.

(** [GetObjectList] over the ten rows returns for the rows 2 to 4. *)
Lemma GetObjectList_returns_witness :
  returns (GetObjectList Sample.doubling Sample.contentStmt
             (Sample.dsOf Sample.tenRows) (Sample.queryOf 2 4 0)).
Proof.
  apply (GetObjectList_returns Sample.doubling Sample.contentStmt
           (Sample.dsOf Sample.tenRows) (Sample.queryOf 2 4 0)); by_numerals.
Defined.

(** [GetManifestData] returns over no rows at all. *)
Lemma GetManifestData_returns_witness :
  returns (GetManifestData Sample.doubling Sample.contentStmt
             (Sample.dsOf []) (Sample.queryOf 0 0 5)).
Proof.
  apply (GetManifestData_returns Sample.doubling Sample.contentStmt
           (Sample.dsOf []) (Sample.queryOf 0 0 5)); by_numerals.
Defined.

(** The rows 2 to 4 of ten under a maximum of -3. *)
Lemma GetObjectList_negative_max_witness :
  GetObjectList Sample.doubling Sample.contentStmt
    (Sample.dsOf Sample.tenRows) (Sample.queryOf 2 4 (-3)) = Panic.
Proof.
  apply (GetObjectList_negative_max Sample.doubling Sample.contentStmt
           (Sample.dsOf Sample.tenRows) (Sample.queryOf 2 4 (-3))
           "SELECT date_added, stix_id, modified, spec_version"
           {| scans := map inl Sample.tenRows; rowsErr := None |} Sample.tenRows);
    first [reflexivity | by_numerals].
Defined.

Section PipelineResults.

Variable STIXObject : Type.
Variable growSpare : nat -> nat.
Variable sqlGetObjectList : query.QueryType -> string * option error.
Variable sqlGetManifestData : query.QueryType -> string * option error.
Variable GetObject : Sqlite3DatastoreType -> string -> string -> STIXObject + error.

(** The entries of a successful [GetObjectList], counted. *)
Lemma entries_counted (ds : Sqlite3DatastoreType) (query : query.QueryType)
    (entries : GoSlice.t datastore.CollectionRawDataType)
    (metaData : datastore.QueryReturnDataType) :
  GetObjectList growSpare sqlGetObjectList ds query = Ok (entries, metaData) ->
  datastore.Size metaData <= GoInt.maxInt ->
  1 <= Z.of_nat (List.length (GoSlice.elems entries)) /\
  Z.of_nat (List.length (GoSlice.elems entries)) =
  datastore.RangeEnd metaData - datastore.RangeBegin metaData + 1.
Proof.
  intros H Hsize.
  destruct (GetObjectList_Ok _ _ _ _ _ _ H)
    as (matching & all & first & last & Hall & Hrange & Hslice & Hne & Hs & Hb & He).
  rewrite Hb, He. rewrite Hs in Hsize.
  apply slice_Ok in Hslice as (Hf & Hfl & Hcap & Hwin).
  pose proof (window_length all first last Hf Hfl Hcap) as Hlen. rewrite <- Hwin in Hlen.
  assert (Hpos : 1 <= Z.of_nat (List.length (GoSlice.elems entries))).
  { destruct (GoSlice.elems entries); [contradiction|cbn [List.length]; lia]. }
  pose proof minInt_neg as Hmin.
  assert (Hint : GoInt.inRange last).
  { apply (processRangeValues_end_is_int _ _ _ _ _ _) with (2 := Hrange).
    split; [unfold GoSlice.len; lia|exact Hsize]. }
  destruct Hint as [_ Hint]. rewrite sub_exact by lia. lia.
Qed.

(** A successful [GetObjectList] returns at least one entry and exactly as
    many as its metadata spans: [RangeEnd - RangeBegin + 1]. *)
Theorem GetObjectList_count (ds : Sqlite3DatastoreType) (query : query.QueryType)
    (entries : GoSlice.t datastore.CollectionRawDataType)
    (metaData : datastore.QueryReturnDataType) :
  GetObjectList growSpare sqlGetObjectList ds query = Ok (entries, metaData) ->
  datastore.Size metaData <= GoInt.maxInt ->
  1 <= Z.of_nat (List.length (GoSlice.elems entries)) /\
  Z.of_nat (List.length (GoSlice.elems entries)) =
  datastore.RangeEnd metaData - datastore.RangeBegin metaData + 1.
Proof. apply entries_counted. Qed.

(** For a request that cannot overflow, a successful [GetObjectList] returns
    no more entries than the forced maximum and no more than there are. *)
Theorem GetObjectList_at_most_max (ds : Sqlite3DatastoreType)
    (query : query.QueryType)
    (entries : GoSlice.t datastore.CollectionRawDataType)
    (metaData : datastore.QueryReturnDataType) :
  GetObjectList growSpare sqlGetObjectList ds query = Ok (entries, metaData) ->
  query.RangeEnd query < GoInt.maxInt ->
  0 < query.RangeMax query -> query.RangeMax query <= GoInt.maxInt ->
  Z.of_nat (List.length (GoSlice.elems entries)) <= query.RangeMax query /\
  Z.of_nat (List.length (GoSlice.elems entries)) <= datastore.Size metaData.
Proof.
  intros H Hend Hmax Hmaxi.
  destruct (GetObjectList_Ok _ _ _ _ _ _ H)
    as (matching & all & first & last & Hall & Hrange & Hslice & Hne & Hs & Hb & He).
  destruct (processRangeValues_safe_window _ _ _ _ _ _ (Z.lt_le_incl _ _ Hmax)
              Hmaxi Hend Hrange) as (Hf & Hfl & Hls & Hli & Hm).
  apply slice_Ok in Hslice as (_ & _ & Hcap & Hwin).
  pose proof (window_length all first last Hf ltac:(lia) Hcap) as Hlen.
  rewrite <- Hwin in Hlen. rewrite Hs. specialize (Hm Hmax). split; lia.
Qed.

(** The bundle of a successful [GetBundle] holds exactly as many objects as
    the metadata returned with it spans. *)
Theorem GetBundle_count (ds : Sqlite3DatastoreType) (query : query.QueryType)
    (stixBundle : bundle.BundleType STIXObject)
    (metaData : datastore.QueryReturnDataType) :
  GetBundle STIXObject growSpare sqlGetObjectList GetObject ds query =
  Ok (stixBundle, metaData) ->
  datastore.Size metaData <= GoInt.maxInt ->
  Z.of_nat (List.length (bundle.Objects stixBundle)) =
  datastore.RangeEnd metaData - datastore.RangeBegin metaData + 1.
Proof.
  unfold GetBundle.
  destruct (GetObjectList growSpare sqlGetObjectList ds query)
    as [[entries metaData']| |] eqn:Hlist; try discriminate.
  destruct (fetchObjects _ _ _ _ _) as [b|err] eqn:Hb; [|discriminate].
  intros [= <- <-] Hsize.
  destruct (fetchObjects_inl _ _ _ _ _ _ Hb) as (objs & Hf & Ho).
  destruct (entries_counted _ _ _ _ Hlist Hsize) as [_ <-].
  rewrite Ho. cbn [bundle.Objects bundle.InitBundle app].
  apply Forall2_length in Hf. now rewrite Hf.
Qed.

End PipelineResults.

(** The ten rows under a maximum of four: four entries, rows 0 to 3. *)
Lemma GetObjectList_count_witness :
  exists entries metaData,
    GetObjectList Sample.doubling Sample.contentStmt
      (Sample.dsOf Sample.tenRows) (Sample.queryOf 0 0 4) = Ok (entries, metaData) /\
    Z.of_nat (List.length (GoSlice.elems entries)) =
    datastore.RangeEnd metaData - datastore.RangeBegin metaData + 1.
Proof.
  do 2 eexists. split; [lazy; reflexivity|].
  apply (GetObjectList_count Sample.doubling Sample.contentStmt
           (Sample.dsOf Sample.tenRows) (Sample.queryOf 0 0 4) _ _ eq_refl).
  by_numerals.
Defined.

Lemma GetObjectList_at_most_max_witness :
  exists entries metaData,
    GetObjectList Sample.doubling Sample.contentStmt
      (Sample.dsOf Sample.tenRows) (Sample.queryOf 2 9 3) = Ok (entries, metaData) /\
    Z.of_nat (List.length (GoSlice.elems entries)) <= 3.
Proof.
  do 2 eexists. split; [lazy; reflexivity|].
  apply (GetObjectList_at_most_max Sample.doubling Sample.contentStmt
           (Sample.dsOf Sample.tenRows) (Sample.queryOf 2 9 3) _ _ eq_refl);
    by_numerals.
Defined.

Lemma GetBundle_count_witness :
  exists stixBundle metaData,
    GetBundle string Sample.doubling Sample.contentStmt Sample.getObject
      (Sample.dsOf Sample.tenRows) (Sample.queryOf 0 1 0) = Ok (stixBundle, metaData) /\
    Z.of_nat (List.length (bundle.Objects stixBundle)) =
    datastore.RangeEnd metaData - datastore.RangeBegin metaData + 1.
Proof.
  do 2 eexists. split; [lazy; reflexivity|].
  apply (GetBundle_count string Sample.doubling Sample.contentStmt Sample.getObject
           (Sample.dsOf Sample.tenRows) (Sample.queryOf 0 1 0) _ _ eq_refl).
  by_numerals.
Defined.

Section PipelineErrors.

Variable growSpare : nat -> nat.
Variable sqlGetObjectList : query.QueryType -> string * option error.
Variable sqlGetManifestData : query.QueryType -> string * option error.

Lemma scanObjectList_error (pre : list ContentRow) (err : error)
    (post : list (ContentRow + error))
    (s : GoSlice.t datastore.CollectionRawDataType) :
  scanObjectList growSpare (map inl pre ++ inr err :: post) s =
  inr (fmtErrorf "database scan error: " err).
Proof.
  revert s. induction pre as [|[[[d i] m] v] pre IH]; intros s; cbn;
    [reflexivity|apply IH].
Qed.

Lemma scanManifest_error (pre : list ContentRow) (err : error)
    (post : list (ContentRow + error)) (m : manifest.ManifestType) :
  scanManifest growSpare (map inl pre ++ inr err :: post) m =
  inr (fmtErrorf "database scan error: " err).
Proof.
  revert m. induction pre as [|[[[d i] mo] v] pre IH]; intros m; cbn;
    [reflexivity|apply IH].
Qed.

(** A row that does not scan ends both queries with the scan error of the
    first such row, whatever was read before it, whatever comes after it
    and whatever the range: nothing of the rows is returned. *)
Theorem content_scan_error (ds : Sqlite3DatastoreType) (query : query.QueryType)
    (sqlStmt : string) (rows : Rows ContentRow) (pre : list ContentRow)
    (err : error) (post : list (ContentRow + error)) :
  QueryContent ds sqlStmt = inl rows ->
  scans rows = map inl pre ++ inr err :: post ->
  (sqlGetObjectList query = (sqlStmt, None) ->
   GetObjectList growSpare sqlGetObjectList ds query =
   Err (fmtErrorf "database scan error: " err)) /\
  (sqlGetManifestData query = (sqlStmt, None) ->
   GetManifestData growSpare sqlGetManifestData ds query =
   Err (fmtErrorf "database scan error: " err)).
Proof.
  intros Hq Hrows. split; intros Hs.
  - unfold GetObjectList. now rewrite Hs, Hq, Hrows, scanObjectList_error.
  - unfold GetManifestData. now rewrite Hs, Hq, Hrows, scanManifest_error.
Qed.

(** Every error of [GetObjectList] is the statement builder's error as it
    is, a wrapped error of the query or of a scan, "no records returned", or
    one of the three range errors. *)
Theorem GetObjectList_errors (ds : Sqlite3DatastoreType) (query : query.QueryType)
    (e : error) :
  GetObjectList growSpare sqlGetObjectList ds query = Err e ->
  snd (sqlGetObjectList query) = Some e \/
  (exists err,
     e = fmtErrorf "database execution error querying collection content: " err) \/
  (exists err, e = fmtErrorf "database scan error: " err) \/
  e = errorsNew "no records returned" \/
  e = errNegativeStart \/ e = errStartAfterEnd \/ e = errOutOfScope.
Proof.
  clear sqlGetManifestData.
  unfold GetObjectList.
  destruct (sqlGetObjectList query) as [sqlStmt [err|]]; [intros [= <-]; now left|].
  destruct (QueryContent ds sqlStmt) as [rows|err]; [|intros [= <-]; eauto].
  destruct (scanObjectList growSpare (scans rows) GoSlice.nilSlice)
    as [all|err] eqn:Hscan.
  2:{ intros [= <-]. right. right. left. revert Hscan.
      generalize (@GoSlice.nilSlice datastore.CollectionRawDataType).
      induction (scans rows) as [|[[[[d i] m] v]|err'] l IH]; intros s; cbn.
      - discriminate.
      - apply IH.
      - intros [= <-]. eauto. }
  cbn zeta. destruct (GoSlice.len all =? 0); [intros [= <-]; auto 6|].
  destruct (processRangeValues _ _ _ _) as [[first last] [err|]] eqn:Hrange.
  - intros [= <-]. apply processRangeValues_errors in Hrange. tauto.
  - intros H. exfalso. revert H. unfold GoSlice.slice, GoSlice.index.
    repeat match goal with
    | |- context [if ?c then _ else _] => destruct c; cbn [bind]
    | |- context [match nth_error ?l ?n with _ => _ end] =>
        destruct (nth_error l n); cbn [bind]
    end; discriminate.
Qed.

End PipelineErrors.

(** Three rows of which the second does not scan. *)
Lemma content_scan_error_witness :
  GetObjectList Sample.doubling Sample.contentStmt Sample.dsScanError
    (Sample.queryOf 0 0 0) =
  Err (fmtErrorf "database scan error: " Sample.scanFailure) /\
  GetManifestData Sample.doubling Sample.contentStmt Sample.dsScanError
    (Sample.queryOf 0 0 0) =
  Err (fmtErrorf "database scan error: " Sample.scanFailure).
Proof.
  destruct (content_scan_error Sample.doubling Sample.contentStmt Sample.contentStmt
              Sample.dsScanError (Sample.queryOf 0 0 0)
              "SELECT date_added, stix_id, modified, spec_version"
              {| scans := [inl (Sample.row "0"); inr Sample.scanFailure;
                           inl (Sample.row "2")];
                 rowsErr := None |}
              [Sample.row "0"] Sample.scanFailure [inl (Sample.row "2")]
              eq_refl eq_refl) as [Hlist Hmanifest].
  split; [apply Hlist|apply Hmanifest]; reflexivity.
Defined.

(** A start beyond the ten rows. *)
Lemma GetObjectList_errors_witness :
  snd (Sample.contentStmt (Sample.queryOf 12 15 0)) = Some errOutOfScope \/
  (exists err,
     errOutOfScope =
     fmtErrorf "database execution error querying collection content: " err) \/
  (exists err, errOutOfScope = fmtErrorf "database scan error: " err) \/
  errOutOfScope = errorsNew "no records returned" \/
  errOutOfScope = errNegativeStart \/ errOutOfScope = errStartAfterEnd \/
  errOutOfScope = errOutOfScope.
Proof.
  apply (GetObjectList_errors Sample.doubling Sample.contentStmt
           (Sample.dsOf Sample.tenRows) (Sample.queryOf 12 15 0)).
  reflexivity.
Defined.

(* ====================================================================== *)
(** ** The manifest against the object list *)
(* ====================================================================== *)

Section MapSlice.

Context {A B : Type}.
Variable f : A -> B.






End MapSlice.

Section Agreement.

Variable growSpare : nat -> nat.
Variable sqlGetObjectList : query.QueryType -> string * option error.
Variable sqlGetManifestData : query.QueryType -> string * option error.



End Agreement.


(* ====================================================================== *)
(** ** Further properties of the collection catalog *)
(* ====================================================================== *)

Lemma collapseRepeats_head (mt : string) (rest : list string) :
  collapseRepeats None (mt :: rest) = mt :: collapseRepeats (Some mt) rest.
Proof. reflexivity. Qed.

(** What is kept after [prev] starts with something else than [prev] and
    repeats nothing. *)
Lemma collapseRepeats_distinct (prev : option string) (l : list string) :
  noAdjacentRepeats (collapseRepeats prev l) /\
  match prev, collapseRepeats prev l with
  | Some p, x :: _ => x <> p
  | _, _ => True
  end.
Proof.
  revert prev. induction l as [|mt l IH]; intros prev; cbn [collapseRepeats].
  - split; [exact I|now destruct prev].
  - destruct (IH (Some mt)) as [Hno Hhd].
    assert (Hcons : noAdjacentRepeats (mt :: collapseRepeats (Some mt) l)).
    { cbn [noAdjacentRepeats]. split; [|exact Hno].
      destruct (collapseRepeats (Some mt) l); [exact I|congruence]. }
    destruct prev as [p|]; [|split; [exact Hcons|exact I]].
    destruct (String.eqb_spec mt p) as [->|Hne].
    + split; [exact Hno|exact Hhd].
    + split; [exact Hcons|exact Hne].
Qed.

(** A list that repeats nothing is kept as it is. *)
Lemma collapseRepeats_fixed (prev : option string) (l : list string) :
  noAdjacentRepeats l ->
  match prev, l with
  | Some p, x :: _ => x <> p
  | _, _ => True
  end ->
  collapseRepeats prev l = l.
Proof.
  revert prev. induction l as [|mt l IH]; intros prev Hno Hhd; [reflexivity|].
  cbn [collapseRepeats]. cbn [noAdjacentRepeats] in Hno. destruct Hno as [Hmt Hno].
  rewrite (IH (Some mt) Hno).
  - destruct prev as [p|]; [|reflexivity].
    destruct (String.eqb_spec mt p); [contradiction|reflexivity].
  - destruct l; [exact I|congruence].
Qed.

Section CatalogResults.

Variable sqlGetAllCollections : string -> string * option error.

(** The row loop, in closed form. *)
Lemma collectionOfRow_collectionFor (r : CollectionRow) :
  goString (mediaType r) -> collectionOfRow r = Ok (collectionFor r).
Proof.
  intros Hr. unfold collectionOfRow. cbn zeta.
  pose proof (Split_length (mediaType r) ",") as Hsplit.
  match goal with
  | |- context [recordMediaTypes ?mts 0 ?mts ?c] =>
      pose proof (recordMediaTypes_collapse mts [] c) as Hloop; set (base := c) in *
  end.
  cbn [app List.length Z.of_nat] in Hloop. rewrite Hloop by (unfold goString in Hr; lia).
  f_equal. unfold lastOpt. cbn [map List.last].
  assert (Hfold : forall l c,
    fold_left collection.AddMediaType l c =
    {| collection.DateAdded := collection.DateAdded c;
       collection.Enabled := collection.Enabled c;
       collection.Hidden := collection.Hidden c;
       collection.ID := collection.ID c;
       collection.Title := collection.Title c;
       collection.Description := collection.Description c;
       collection.CanRead := collection.CanRead c;
       collection.CanWrite := collection.CanWrite c;
       collection.MediaTypes := collection.MediaTypes c ++ l |}).
  { induction l as [|mt l IH]; intros c; cbn [fold_left].
    - rewrite app_nil_r. now destruct c.
    - rewrite IH. cbn. now rewrite <- app_assoc. }
  rewrite Hfold. subst base. unfold collectionFor, mediaTypesOf.
  now destruct (enabled r =? 1), (hidden r =? 1), (iCanRead r =? 1),
    (iCanWrite r =? 1).
Qed.

Lemma scanCollections_collectionFor (matching : list CollectionRow)
    (rest : list (CollectionRow + error)) (acc : collection.CollectionsType) :
  Forall (fun r => goString (mediaType r)) matching ->
  scanCollections (map inl matching ++ rest) acc =
  scanCollections rest
    {| collection.Collections :=
         collection.Collections acc ++ map collectionFor matching |}.
Proof.
  intros Hall. revert acc. induction Hall as [|r matching Hr _ IH]; intros acc.
  - cbn. rewrite app_nil_r. now destruct acc.
  - cbn [map app scanCollections]. rewrite (collectionOfRow_collectionFor r Hr).
    cbn [bind]. rewrite IH. cbn [collection.Collections].
    now rewrite <- app_assoc.
Qed.

(** [getCollections] returns one collection per row, in the order of the
    rows, with the row's texts, with each flag set exactly when its column
    holds 1 (any other number leaves it unset), and with the media types of
    the row's delimited list. *)
Theorem getCollections_row_by_row (ds : Sqlite3DatastoreType)
    (whichCollections : string) (rows : Rows CollectionRow)
    (matching : list CollectionRow) :
  QueryCollections ds (fst (sqlGetAllCollections whichCollections)) = inl rows ->
  scans rows = map inl matching ->
  rowsErr rows = None ->
  Forall (fun r => goString (mediaType r)) matching ->
  getCollections sqlGetAllCollections ds whichCollections =
  Ok {| collection.Collections := map collectionFor matching |}.
Proof.
  intros Hq Hrows Herr Hall. unfold getCollections.
  destruct (sqlGetAllCollections whichCollections) as [stmt e]. cbn [fst] in Hq.
  rewrite Hq, Hrows, <- (app_nil_r (map inl matching)).
  rewrite (scanCollections_collectionFor matching [] _ Hall).
  cbn [scanCollections bind collection.Collections collection.InitCollections app].
  now rewrite Herr.
Qed.

(** A row that does not scan ends [getCollections] with that scan error:
    the collections read before it are not returned. *)
Theorem getCollections_scan_error (ds : Sqlite3DatastoreType)
    (whichCollections : string) (rows : Rows CollectionRow)
    (pre : list CollectionRow) (err : error) (post : list (CollectionRow + error)) :
  QueryCollections ds (fst (sqlGetAllCollections whichCollections)) = inl rows ->
  scans rows = map inl pre ++ inr err :: post ->
  Forall (fun r => goString (mediaType r)) pre ->
  getCollections sqlGetAllCollections ds whichCollections =
  Err (fmtErrorf "database scan error querying collection: " err).
Proof.
  intros Hq Hrows Hall. unfold getCollections.
  destruct (sqlGetAllCollections whichCollections) as [stmt e]. cbn [fst] in Hq.
  rewrite Hq, Hrows, (scanCollections_collectionFor pre _ _ Hall). reflexivity.
Qed.

(** An error of the cursor after the last row ends [getCollections] with
    that error, although every row was read. *)
Theorem getCollections_row_error (ds : Sqlite3DatastoreType)
    (whichCollections : string) (rows : Rows CollectionRow)
    (matching : list CollectionRow) (err : error) :
  QueryCollections ds (fst (sqlGetAllCollections whichCollections)) = inl rows ->
  scans rows = map inl matching ->
  rowsErr rows = Some err ->
  Forall (fun r => goString (mediaType r)) matching ->
  getCollections sqlGetAllCollections ds whichCollections =
  Err (fmtErrorf "database row error querying collection: " err).
Proof.
  intros Hq Hrows Herr Hall. unfold getCollections.
  destruct (sqlGetAllCollections whichCollections) as [stmt e]. cbn [fst] in Hq.
  rewrite Hq, Hrows, <- (app_nil_r (map inl matching)).
  rewrite (scanCollections_collectionFor matching [] _ Hall).
  cbn [scanCollections bind]. now rewrite Herr.
Qed.

(** Every collection that [getCollections] builds from a row has at least
    one media type (the empty one when the row's list is empty), and no
    media type of it equals the one right before it. *)
Theorem collectionOfRow_media_types_distinct (r : CollectionRow) :
  goString (mediaType r) ->
  exists c,
    collectionOfRow r = Ok c /\
    collection.MediaTypes c <> [] /\
    noAdjacentRepeats (collection.MediaTypes c) /\
    (mediaType r = EmptyString -> collection.MediaTypes c = [EmptyString]).
Proof.
  intros Hr. exists (collectionFor r).
  split; [now apply collectionOfRow_collectionFor|].
  cbn [collectionFor collection.MediaTypes]. unfold mediaTypesOf.
  pose proof (Split_length (mediaType r) ",") as Hlen.
  split; [|split].
  - destruct (Split (mediaType r) ","); [cbn in Hlen; lia|discriminate].
  - apply collapseRepeats_distinct.
  - now intros ->.
Qed.

End CatalogResults.

(* ====================================================================== *)
(** ** Media types through their delimited list *)
(* ====================================================================== *)

Section Delimited.

Variable sep : ascii.

Lemma Split_free (x : string) : free sep x -> Split x sep = [x].
Proof.
  induction x as [|c x IH]; cbn; [reflexivity|]. intros [Hc Hx].
  destruct (Ascii.eqb_spec c sep); [contradiction|]. now rewrite (IH Hx).
Qed.

Lemma Split_append (x s : string) :
  free sep x -> Split (x ++ String sep s) sep = x :: Split s sep.
Proof.
  induction x as [|c x IH]; cbn.
  - intros _. now rewrite Ascii.eqb_refl.
  - intros [Hc Hx]. destruct (Ascii.eqb_spec c sep); [contradiction|].
    now rewrite (IH Hx).
Qed.

(** No field of a split string holds the separator. *)
Lemma Split_fields_free (s : string) : Forall (free sep) (Split s sep).
Proof.
  induction s as [|c s IH]; cbn.
  - repeat constructor.
  - destruct (Ascii.eqb_spec c sep) as [->|Hc].
    + constructor; [exact I|exact IH].
    + destruct (Split s sep) as [|field fields]; [repeat constructor; assumption|].
      inversion IH; subst. constructor; [split; assumption|assumption].
Qed.

(** Joining the fields of a split string gives the string back. *)
Lemma concat_Split (s : string) :
  String.concat (String sep EmptyString) (Split s sep) = s.
Proof.
  induction s as [|c s IH]; cbn; [reflexivity|].
  destruct (Ascii.eqb_spec c sep) as [->|Hc].
  - pose proof (Split_length s sep) as Hlen.
    destruct (Split s sep) as [|field fields] eqn:Hs; [cbn in Hlen; lia|].
    cbn [String.concat]. cbn [String.concat] in IH. rewrite IH. reflexivity.
  - pose proof (Split_length s sep) as Hlen.
    destruct (Split s sep) as [|field fields] eqn:Hs; [cbn in Hlen; lia|].
    cbn [String.concat] in *. destruct fields; cbn in *; now rewrite IH.
Qed.

(** Splitting the joined fields gives the fields back, when there is a
    field and none holds the separator. *)
Lemma Split_concat (l : list string) :
  l <> [] -> Forall (free sep) l ->
  Split (String.concat (String sep EmptyString) l) sep = l.
Proof.
  induction l as [|x l IH]; [contradiction|]. intros _ Hall.
  inversion Hall as [|? ? Hx Hl]; subst.
  destruct l as [|y l]; [exact (Split_free x Hx)|].
  cbn [String.concat String.append].
  rewrite (Split_append x _ Hx). f_equal. apply IH; [discriminate|exact Hl].
Qed.

End Delimited.

Lemma collapseRepeats_In (prev : option string) (l : list string) (x : string) :
  In x (collapseRepeats prev l) -> In x l.
Proof.
  revert prev. induction l as [|mt l IH]; intros prev; cbn [collapseRepeats];
    [contradiction|].
  destruct prev as [p|]; [destruct (String.eqb mt p)|]; cbn [In]; intros H;
    try (destruct H as [H|H]; [now left|]); right; exact (IH _ H).
Qed.

Lemma length_append (a b : string) :
  String.length (a ++ b) = (String.length a + String.length b)%nat.
Proof. induction a as [|c a IH]; cbn; [reflexivity|now rewrite IH]. Qed.

Lemma concat_cons_length (sep x y : string) (l : list string) :
  String.length (String.concat sep (x :: y :: l)) =
  (String.length x + String.length sep + String.length (String.concat sep (y :: l)))%nat.
Proof. cbn [String.concat]. rewrite !length_append. lia. Qed.

(** Dropping repeats does not make the delimited list longer. *)
Lemma collapseRepeats_shorter (sep : string) (prev : option string)
    (l : list string) :
  (String.length (String.concat sep (collapseRepeats prev l)) <=
   String.length (String.concat sep l))%nat.
Proof.
  revert prev. induction l as [|mt l IH]; intros prev; [cbn; lia|].
  assert (Hrest : (String.length (String.concat sep l) <=
                   String.length (String.concat sep (mt :: l)))%nat).
  { destruct l; [cbn; lia|rewrite concat_cons_length; lia]. }
  assert (Hkeep : (String.length
                     (String.concat sep (mt :: collapseRepeats (Some mt) l)) <=
                   String.length (String.concat sep (mt :: l)))%nat).
  { specialize (IH (Some mt)).
    destruct (collapseRepeats (Some mt) l) as [|y kept] eqn:Hk.
    - destruct l; [cbn; lia|rewrite concat_cons_length; cbn; lia].
    - destruct l as [|z l]; [discriminate|].
      rewrite !concat_cons_length. lia. }
  cbn [collapseRepeats]. destruct prev as [p|]; [|exact Hkeep].
  destruct (String.eqb mt p); [|exact Hkeep].
  specialize (IH (Some mt)). lia.
Qed.

(** Written back as a comma-delimited list and read again, the media types
    of a collection are what they were. *)
Theorem media_types_reread (r : CollectionRow) :
  goString (mediaType r) ->
  exists c,
    collectionOfRow r = Ok c /\
    collectionOfRow (withMediaType r (String.concat "," (collection.MediaTypes c)))
    = Ok c.
Proof.
  intros Hr. exists (collectionFor r).
  split; [now apply collectionOfRow_collectionFor|].
  assert (Hre : goString (String.concat "," (mediaTypesOf r))).
  { unfold goString, mediaTypesOf in *.
    pose proof (collapseRepeats_shorter "," None (Split (mediaType r) ",")) as Hle.
    rewrite (concat_Split "," (mediaType r)) in Hle. lia. }
  rewrite collectionOfRow_collectionFor by exact Hre.
  f_equal. unfold collectionFor, withMediaType.
  cbn [dateAdded enabled hidden id title description iCanRead iCanWrite mediaType
       collection.MediaTypes].
  f_equal. unfold mediaTypesOf at 1. cbn [mediaType]. unfold mediaTypesOf.
  pose proof (Split_length (mediaType r) ",") as Hlen.
  rewrite (Split_concat "," (collapseRepeats None (Split (mediaType r) ","))).
  - apply collapseRepeats_fixed; [apply collapseRepeats_distinct|exact I].
  - destruct (Split (mediaType r) ","); [cbn in Hlen; lia|discriminate].
  - apply Forall_forall. intros x Hx. apply collapseRepeats_In in Hx.
    exact (proj1 (Forall_forall _ _) (Split_fields_free "," (mediaType r)) x Hx).
Qed.

(** The two sample rows, as collections. *)
Lemma getCollections_row_by_row_witness :
  getCollections Sample.collectionsStmt Sample.dsCollections "enabledVisible" =
  Ok {| collection.Collections := map collectionFor Sample.twoCollections |}.
Proof.
  apply (getCollections_row_by_row Sample.collectionsStmt Sample.dsCollections
           "enabledVisible" _ Sample.twoCollections eq_refl eq_refl eq_refl).
  repeat constructor.
Defined.

(** A collections query whose second row does not scan. *)
Lemma getCollections_scan_error_witness :
  getCollections Sample.collectionsStmt Sample.dsScanError "all" =
  Err (fmtErrorf "database scan error querying collection: " Sample.scanFailure).
Proof.
  apply (getCollections_scan_error Sample.collectionsStmt Sample.dsScanError "all"
           _ [Sample.collectionRowWith "c1" "a"] Sample.scanFailure [] eq_refl eq_refl).
  repeat constructor.
Defined.

(** A collections query interrupted after its two rows. *)
Lemma getCollections_row_error_witness :
  getCollections Sample.collectionsStmt Sample.dsRowError "all" =
  Err (fmtErrorf "database row error querying collection: "
         (errorsNew "interrupted")).
Proof.
  apply (getCollections_row_error Sample.collectionsStmt Sample.dsRowError "all"
           _ Sample.twoCollections (errorsNew "interrupted") eq_refl eq_refl eq_refl).
  repeat constructor.
Defined.

(** A row without media types. *)
Lemma collectionOfRow_media_types_distinct_witness :
  exists c,
    collectionOfRow (Sample.collectionRowWith "c1" EmptyString) = Ok c /\
    collection.MediaTypes c <> [] /\
    noAdjacentRepeats (collection.MediaTypes c) /\
    (EmptyString = EmptyString -> collection.MediaTypes c = [EmptyString]).
Proof.
  apply (collectionOfRow_media_types_distinct
           (Sample.collectionRowWith "c1" EmptyString)).
  reflexivity.
Defined.

(** The list ["a,a,b"], read, written back and read again. *)
Lemma media_types_reread_witness :
  exists c,
    collectionOfRow (Sample.collectionRowWith "c1" "a,a,b") = Ok c /\
    collectionOfRow
      (withMediaType (Sample.collectionRowWith "c1" "a,a,b")
         (String.concat "," (collection.MediaTypes c))) = Ok c.
Proof.
  apply (media_types_reread (Sample.collectionRowWith "c1" "a,a,b")).
  reflexivity.
Defined.

(* ====================================================================== *)
(** ** Further properties of the write path *)
(* ====================================================================== *)

Section WriteResults.

Variable sqlAddCollection : string * option error.
Variable sqlAddCollectionMediaType : string * option error.
Variable sqlAddObjectToCollection : string * option error.

(** The media type loop on an engine that stores every row. *)
Lemma addCollectionMediaTypes_all (objID : string) (medias : list string)
    (ds : Sqlite3DatastoreType) :
  acceptsAll (engine (DB ds)) (stored (DB ds))
    (map (mediaTypeRow (fst sqlAddCollectionMediaType) objID) medias) ->
  addCollectionMediaTypes sqlAddCollectionMediaType ds objID medias =
  (storing ds (map (mediaTypeRow (fst sqlAddCollectionMediaType) objID) medias), None).
Proof.
  revert ds. destruct sqlAddCollectionMediaType as [s2 e2]. cbn [fst].
  induction medias as [|m medias IH]; intros ds Hacc;
    cbn [map addCollectionMediaTypes acceptsAll] in *.
  - unfold storing. rewrite app_nil_r. now destruct ds as [[e st]].
  - fold (mediaTypeArgs objID m). destruct Hacc as [Hm Hacc].
    change (fst (mediaTypeRow s2 objID m)) with s2 in Hm.
    change (snd (mediaTypeRow s2 objID m)) with (mediaTypeArgs objID m) in Hm.
    rewrite (Exec_accepted ds _ _ Hm). cbv iota beta.
    fold (mediaTypeRow s2 objID m).
    etransitivity; [apply (IH (storing ds [mediaTypeRow s2 objID m])); exact Hacc|].
    unfold storing. cbn. now rewrite <- app_assoc.
Qed.

(** What [addCollection] leaves, whatever the engine does: the rows stored
    before, followed by the first [k] of the rows it asks for. *)
Lemma addCollectionMediaTypes_prefix (objID : string) (medias : list string)
    (ds : Sqlite3DatastoreType) :
  exists k,
    (k <= List.length medias)%nat /\
    fst (addCollectionMediaTypes sqlAddCollectionMediaType ds objID medias) =
    storing ds
      (firstn k (map (mediaTypeRow (fst sqlAddCollectionMediaType) objID) medias)) /\
    (snd (addCollectionMediaTypes sqlAddCollectionMediaType ds objID medias) = None <->
     k = List.length medias).
Proof.
  clear sqlAddCollection sqlAddObjectToCollection.
  revert ds. destruct sqlAddCollectionMediaType as [s2 e2]. cbn [fst].
  induction medias as [|m medias IH]; intros ds; cbn [map addCollectionMediaTypes].
  - exists 0%nat. cbn. unfold storing. rewrite app_nil_r.
    split; [lia|]. split; [now destruct ds as [[e st]]|tauto].
  - fold (mediaTypeArgs objID m).
    destruct (rejects (engine (DB ds)) (stored (DB ds)) s2 (mediaTypeArgs objID m))
      as [err|] eqn:Hrej.
    + rewrite (Exec_rejected ds _ _ _ Hrej). exists 0%nat. cbn.
      unfold storing. rewrite app_nil_r.
      split; [lia|]. split; [now destruct ds as [[e st]]|].
      split; [discriminate|lia].
    + rewrite (Exec_accepted ds _ _ Hrej). cbv iota beta.
      match goal with
      | |- context [addCollectionMediaTypes _ ?d _ _] =>
          destruct (IH d) as (k & Hk & Hst & Hnone)
      end.
      exists (S k). cbn [List.length firstn]. split; [lia|].
      rewrite Hst. split.
      * unfold storing, mediaTypeRow. cbn. now rewrite <- app_assoc.
      * rewrite Hnone. lia.
Qed.

(** [addCollection] only ever adds rows: it leaves the engine as it was and
    the rows stored before in place, followed by the first few of the rows
    it asks for (the collection's row, then one row per media type in their
    order); it returns nil exactly when all of them are stored. *)
Theorem addCollection_only_appends (ds : Sqlite3DatastoreType)
    (dateAdded : string) (obj : collection.CollectionType) :
  let asked :=
    collectionRow (fst sqlAddCollection) dateAdded obj ::
    map (mediaTypeRow (fst sqlAddCollectionMediaType) (collection.ID obj))
      (collection.MediaTypes obj) in
  let result :=
    addCollection sqlAddCollection sqlAddCollectionMediaType ds dateAdded obj in
  exists k,
    (k <= List.length asked)%nat /\
    fst result = storing ds (firstn k asked) /\
    (snd result = None <-> k = List.length asked).
Proof.
  clear sqlAddObjectToCollection. cbn zeta. unfold addCollection.
  destruct sqlAddCollection as [s1 e1]. cbn [fst].
  fold (collectionArgs dateAdded obj).
  destruct (rejects (engine (DB ds)) (stored (DB ds)) s1 (collectionArgs dateAdded obj))
    as [err|] eqn:Hrej.
  - rewrite (Exec_rejected ds _ _ _ Hrej). exists 0%nat. cbn.
    unfold storing. rewrite app_nil_r.
    split; [lia|]. split; [now destruct ds as [[e st]]|].
    split; [discriminate|lia].
  - rewrite (Exec_accepted ds _ _ Hrej). cbv iota beta.
    match goal with
    | |- context [addCollectionMediaTypes _ ?d _ _] =>
        destruct (addCollectionMediaTypes_prefix (collection.ID obj)
                    (collection.MediaTypes obj) d) as (k & Hk & Hst & Hnone)
    end.
    exists (S k). cbn [List.length firstn]. rewrite length_map. split; [lia|].
    rewrite Hst. split.
    + unfold storing, collectionRow. cbn. now rewrite <- app_assoc.
    + rewrite Hnone. lia.
Qed.

(** On an engine that stores every row it is asked for, [addCollection]
    returns nil and leaves the collection's row followed by one row per
    media type, in their order, on top of what was stored. *)
Theorem addCollection_all_stored (ds : Sqlite3DatastoreType)
    (dateAdded : string) (obj : collection.CollectionType) :
  let asked :=
    collectionRow (fst sqlAddCollection) dateAdded obj ::
    map (mediaTypeRow (fst sqlAddCollectionMediaType) (collection.ID obj))
      (collection.MediaTypes obj) in
  acceptsAll (engine (DB ds)) (stored (DB ds)) asked ->
  addCollection sqlAddCollection sqlAddCollectionMediaType ds dateAdded obj =
  (storing ds asked, None).
Proof.
  intros asked [Hbase Hacc]. unfold addCollection. subst asked.
  destruct sqlAddCollection as [s1 e1]. cbn [fst] in *.
  fold (collectionArgs dateAdded obj).
  change (fst (collectionRow s1 dateAdded obj)) with s1 in Hbase.
  change (snd (collectionRow s1 dateAdded obj))
    with (collectionArgs dateAdded obj) in Hbase.
  rewrite (Exec_accepted ds _ _ Hbase). cbv iota beta.
  fold (collectionRow s1 dateAdded obj).
  etransitivity; [apply addCollectionMediaTypes_all; exact Hacc|].
  unfold storing. cbn. now rewrite <- app_assoc.
Qed.

(** When the engine rejects the collection's row, [addCollection] returns
    that error wrapped and leaves the datastore as it was: no media type is
    tried. *)
Theorem addCollection_rejected (ds : Sqlite3DatastoreType)
    (dateAdded : string) (obj : collection.CollectionType) (err : error) :
  rejects (engine (DB ds)) (stored (DB ds)) (fst sqlAddCollection)
    (collectionArgs dateAdded obj) = Some err ->
  addCollection sqlAddCollection sqlAddCollectionMediaType ds dateAdded obj =
  (ds, Some (fmtErrorf "database execution error inserting collection" err)).
Proof.
  intros Hrej. unfold addCollection. destruct sqlAddCollection as [s1 e1].
  cbn [fst] in Hrej. fold (collectionArgs dateAdded obj).
  now rewrite (Exec_rejected ds _ _ _ Hrej).
Qed.

(** [addCollection] stores of a media type only whether it is the STIX one:
    two collections that differ in nothing else than their other media types
    leave the same rows and the same result. *)
Theorem addCollection_media_types_conflated (ds : Sqlite3DatastoreType)
    (dateAdded : string) (obj obj' : collection.CollectionType) :
  collection.ID obj = collection.ID obj' ->
  collection.Title obj = collection.Title obj' ->
  collection.Description obj = collection.Description obj' ->
  collection.CanRead obj = collection.CanRead obj' ->
  collection.CanWrite obj = collection.CanWrite obj' ->
  map isSTIX (collection.MediaTypes obj) = map isSTIX (collection.MediaTypes obj') ->
  addCollection sqlAddCollection sqlAddCollectionMediaType ds dateAdded obj =
  addCollection sqlAddCollection sqlAddCollectionMediaType ds dateAdded obj'.
Proof.
  intros Hid Ht Hd Hr Hw Hm. unfold addCollection.
  destruct sqlAddCollection as [s1 e1]. rewrite Hid, Ht, Hd, Hr, Hw.
  destruct (Exec ds s1 _) as [ds1 [err|]]; [reflexivity|].
  generalize (collection.ID obj'). intros objID.
  revert ds1 Hm. generalize (collection.MediaTypes obj').
  induction (collection.MediaTypes obj) as [|m medias IH]; intros medias' ds1 Hm;
    destruct medias' as [|m' medias']; try discriminate; [reflexivity|].
  cbn [map] in Hm. injection Hm as Hm Hrest. unfold isSTIX in Hm.
  cbn [addCollectionMediaTypes]. destruct sqlAddCollectionMediaType as [s2 e2].
  rewrite Hm. destruct (Exec ds1 s2 _) as [ds2 [err|]]; [reflexivity|].
  apply IH. exact Hrest.
Qed.

(** [addObjectToCollection] stores the link when the engine takes it and
    returns nil; when the engine rejects it, it returns that error wrapped
    and leaves the datastore as it was. *)
Theorem addObjectToCollection_result (ds : Sqlite3DatastoreType)
    (dateAdded : string) (obj : record.CollectionRecordType) :
  let row := recordRow (fst sqlAddObjectToCollection) dateAdded obj in
  (rejects (engine (DB ds)) (stored (DB ds)) (fst row) (snd row) = None ->
   addObjectToCollection sqlAddObjectToCollection ds dateAdded obj =
   (storing ds [row], None)) /\
  (forall err,
     rejects (engine (DB ds)) (stored (DB ds)) (fst row) (snd row) = Some err ->
     addObjectToCollection sqlAddObjectToCollection ds dateAdded obj =
     (ds, Some (fmtErrorf "database execution error inserting collection data" err))).
Proof.
  cbn zeta. unfold addObjectToCollection, recordRow.
  destruct sqlAddObjectToCollection as [stmt e]. cbn [fst snd].
  split.
  - intros Hacc. now rewrite (Exec_accepted ds _ _ Hacc).
  - intros err Hrej. now rewrite (Exec_rejected ds _ _ _ Hrej).
Qed.

(** No link is looked up before it is stored: on an engine that takes the
    row both times, linking the same object to the same collection twice
    leaves two rows. *)
Theorem addObjectToCollection_twice (ds : Sqlite3DatastoreType)
    (date1 date2 : string) (obj : record.CollectionRecordType) :
  let row1 := recordRow (fst sqlAddObjectToCollection) date1 obj in
  let row2 := recordRow (fst sqlAddObjectToCollection) date2 obj in
  acceptsAll (engine (DB ds)) (stored (DB ds)) [row1; row2] ->
  let '(ds1, _) := addObjectToCollection sqlAddObjectToCollection ds date1 obj in
  addObjectToCollection sqlAddObjectToCollection ds1 date2 obj =
  (storing ds [row1; row2], None).
Proof.
  cbn zeta. intros (H1 & H2 & _).
  unfold addObjectToCollection, recordRow in *.
  destruct sqlAddObjectToCollection as [stmt e]. cbn [fst snd] in *.
  rewrite (Exec_accepted ds _ _ H1). cbv iota beta.
  match goal with
  | |- context [Exec ?d _ _] => rewrite (Exec_accepted d _ _ H2)
  end.
  unfold storing. cbn. now rewrite <- app_assoc.
Qed.

End WriteResults.

(** A collection with three media types on an engine that stores all. *)
Lemma addCollection_all_stored_witness :
  addCollection ("INSERT collection", None) ("INSERT media", None)
    (Sample.dsOf []) "2018-01-01T00:00:00.000000Z" Sample.twoMediaCollection =
  (storing (Sample.dsOf [])
     [("INSERT collection",
       [SqlText "2018-01-01T00:00:00.000000Z"; SqlText "c1"; SqlText "t";
        SqlText "d"; SqlBool true; SqlBool false]);
      ("INSERT media", [SqlText "c1"; SqlInt 1]);
      ("INSERT media", [SqlText "c1"; SqlInt 0]);
      ("INSERT media", [SqlText "c1"; SqlInt 0])], None).
Proof.
  apply (addCollection_all_stored ("INSERT collection", None) ("INSERT media", None)
           (Sample.dsOf []) "2018-01-01T00:00:00.000000Z" Sample.twoMediaCollection).
  cbn. repeat split.
Defined.

(** The same collection on an engine that rejects every insert. *)
Lemma addCollection_rejected_witness :
  addCollection ("INSERT collection", None) ("INSERT media", None)
    Sample.dsLocked "2018-01-01T00:00:00.000000Z" Sample.twoMediaCollection =
  (Sample.dsLocked,
   Some (fmtErrorf "database execution error inserting collection"
           (errorsNew "database is locked"))).
Proof.
  apply (addCollection_rejected ("INSERT collection", None) ("INSERT media", None)
           Sample.dsLocked "2018-01-01T00:00:00.000000Z" Sample.twoMediaCollection).
  reflexivity.
Defined.

(** Two collections that differ in their second and third media type. *)
Lemma addCollection_media_types_conflated_witness :
  addCollection ("INSERT collection", None) ("INSERT media", None)
    (Sample.dsOf []) "2018-01-01T00:00:00.000000Z" Sample.twoMediaCollection =
  addCollection ("INSERT collection", None) ("INSERT media", None)
    (Sample.dsOf []) "2018-01-01T00:00:00.000000Z" Sample.otherMediaCollection.
Proof.
  apply (addCollection_media_types_conflated ("INSERT collection", None)
           ("INSERT media", None) (Sample.dsOf []) "2018-01-01T00:00:00.000000Z"
           Sample.twoMediaCollection Sample.otherMediaCollection);
    reflexivity.
Defined.

(** One link stored twice. *)
Lemma addObjectToCollection_twice_witness :
  addObjectToCollection ("INSERT link", None)
    (fst (addObjectToCollection ("INSERT link", None) (Sample.dsOf [])
            "2018-01-01T00:00:00.000000Z" Sample.link))
    "2018-01-02T00:00:00.000000Z" Sample.link =
  (storing (Sample.dsOf [])
     [("INSERT link",
       [SqlText "2018-01-01T00:00:00.000000Z"; SqlText "c1"; SqlText "indicator--0"]);
      ("INSERT link",
       [SqlText "2018-01-02T00:00:00.000000Z"; SqlText "c1"; SqlText "indicator--0"])],
   None).
Proof.
  exact (addObjectToCollection_twice ("INSERT link", None) (Sample.dsOf [])
           "2018-01-01T00:00:00.000000Z" "2018-01-02T00:00:00.000000Z" Sample.link
           (conj eq_refl (conj eq_refl I))).
Defined.

(* ====================================================================== *)
(** ** Reports *)
(* ====================================================================== *)

Section ReportFacts.

Variable CommonPropertiesType : Type.
Variable DescriptivePropertiesType : Type.
Variable Timestamp : Type.
Variable VerifyTimestamp :
  CommonPropertiesType -> Timestamp -> string * option error.

(** Objects added one after the other end up behind the references the
    report had, in the order they were added, and the list is no longer nil;
    nothing else of the report changes. *)
Theorem AddObject_in_order
    (this : report.ReportType CommonPropertiesType DescriptivePropertiesType)
    (value : string) (values : list string) :
  let refs :=
    match report.Object_refs this with
    | None => []
    | Some refs => refs
    end in
  fold_left report.AddObject (value :: values) this =
  report.Build_ReportType _ _ (report.common this) (report.descriptive this)
    (report.Published this) (Some (refs ++ value :: values)).
Proof.
  cbn zeta. cbn [fold_left]. revert this value.
  induction values as [|v values IH]; intros this value; [reflexivity|].
  cbn [fold_left] in *. rewrite IH. unfold report.AddObject. cbn.
  now rewrite <- app_assoc.
Qed.

(** Adding an object and setting the publication time do not interfere:
    in either order they give the same report and the same error. *)
Theorem AddObject_SetPublished_commute
    (this : report.ReportType CommonPropertiesType DescriptivePropertiesType)
    (value : string) (t : Timestamp) :
  report.SetPublished VerifyTimestamp (report.AddObject this value) t =
  (report.AddObject (fst (report.SetPublished VerifyTimestamp this t)) value,
   snd (report.SetPublished VerifyTimestamp this t)).
Proof.
  unfold report.SetPublished, report.AddObject. cbn.
  now destruct (VerifyTimestamp (report.common this) t) as [ts [err|]].
Qed.

End ReportFacts.

(* ====================================================================== *)
(** ** Groupings *)
(* ====================================================================== *)

Section GroupingFacts.

Variable CommonObjectProperties : Type.
Variable ValidSDO : CommonObjectProperties -> bool -> bool * Z * list string.

(** Whatever the check of the common properties reports, [Valid] says
    valid exactly when the number of problems it returns is zero, that
    number is never negative, and the details are those of the common
    properties followed by one line on the context. *)
Theorem Valid_verdict_and_count (o : grouping.Grouping CommonObjectProperties)
    (debug : bool) :
  let '(valid, problemsFound, resultDetails) := grouping.Valid ValidSDO o debug in
  (valid = true <-> problemsFound = 0) /\
  0 <= problemsFound /\
  exists line,
    resultDetails = snd (ValidSDO (grouping.common o) debug) ++ [line] /\
    (line = "-- The context property is required but missing" <->
     grouping.Context o = EmptyString).
Proof.
  unfold grouping.Valid.
  destruct (ValidSDO (grouping.common o) debug) as [[okBase pBase] dBase].
  cbn [snd app].
  destruct (String.eqb_spec (grouping.Context o) EmptyString) as [Hc|Hc];
    rewrite Z.gtb_ltb;
    match goal with
    | |- context [0 <? ?n] => destruct (Z.ltb_spec 0 n)
    end;
    (split; [split; [discriminate || reflexivity || lia|try discriminate; lia]|]);
    (split; [lia|]); eexists; (split; [reflexivity|]);
    (split; [tauto || discriminate|tauto || reflexivity]).
Qed.

(** When the common properties report a number of problems that is not
    negative, a grouping is valid exactly when that number is zero and its
    context is not empty; an empty context counts as one more problem. The
    verdict of the common properties themselves is not looked at. *)
Theorem Valid_characterised (o : grouping.Grouping CommonObjectProperties)
    (debug : bool) (okBase : bool) (pBase : Z) (dBase : list string) :
  ValidSDO (grouping.common o) debug = (okBase, pBase, dBase) ->
  0 <= pBase -> pBase < GoInt.maxInt ->
  fst (fst (grouping.Valid ValidSDO o debug)) =
  (pBase =? 0) && negb (String.eqb (grouping.Context o) EmptyString) /\
  snd (fst (grouping.Valid ValidSDO o debug)) =
  pBase + (if String.eqb (grouping.Context o) EmptyString then 1 else 0).
Proof.
  intros Hbase Hp Hpi. unfold grouping.Valid. rewrite Hbase.
  pose proof minInt_neg as Hmin.
  rewrite (add_exact 0 pBase) by lia. cbn [Z.add].
  destruct (String.eqb (grouping.Context o) EmptyString).
  - rewrite (add_exact pBase 1) by lia. rewrite Z.gtb_ltb.
    destruct (Z.ltb_spec 0 (pBase + 1)); [|lia]. cbn [fst snd].
    now rewrite andb_false_r.
  - rewrite Z.gtb_ltb. rewrite Z.add_0_r, andb_true_r.
    destruct (Z.ltb_spec 0 pBase), (Z.eqb_spec pBase 0); cbn [fst snd];
      split; try reflexivity; lia.
Qed.

End GroupingFacts.

(** A grouping without context whose common properties are in order. *)
Lemma Valid_characterised_witness :
  fst (fst (grouping.Valid (Sample.validSDO 0) (Sample.groupingWith EmptyString) false))
  = false /\
  snd (fst (grouping.Valid (Sample.validSDO 0) (Sample.groupingWith EmptyString) false))
  = 1.
Proof.
  apply (Valid_characterised unit (Sample.validSDO 0)
           (Sample.groupingWith EmptyString) false true 0
           ["++ common properties checked"] eq_refl); by_numerals.
Defined.
